(** * Wine classifier service: validation, matrix construction, response
      shaping and the artifact contract

    Shallow embedding of [app.py] (the inference service) and of
    [save_artifacts] from [train_model.py].

    - Python values decoded from JSON are the inductive [pyval]; a [dict] is
      an insertion-ordered association list, a [float] is an IEEE 754
      binary64 number ([spec_float]).
    - Code that may raise returns [Result]; the exceptions that matter to
      the handler of [/predict] are [PyExc].
    - The file system touched by [save_artifacts] and by the start-up code
      is a finite map from absolute paths to nodes, threaded explicitly. *)

From Stdlib Require Import ZArith String Ascii SpecFloat.
From stdpp Require Import base option list strings gmap.

Local Open Scope string_scope.
Local Open Scope list_scope.

(** ** Python values *)

(** A Python [float]. *)
Definition float64 : Type := spec_float.

(** The values [json.loads] produces: [None], [bool], [int], [float], [str],
    [list] and [dict] (keys are strings, in insertion order). *)
Unset Elimination Schemes.
Inductive pyval : Type :=
| PNone
| PBool (b : bool)
| PInt (z : Z)
| PFloat (x : float64)
| PStr (s : string)
| PList (l : list pyval)
| PDict (d : list (string * pyval)).
Set Elimination Schemes.

(** A dict as the program sees it. *)
Definition dict : Type := list (string * pyval).

(** ** Exceptions and results *)

(** Texts built by the program.  A literal is kept as it is; an f-string is
    kept as its template together with the interpolated values. *)
Inductive Text : Type :=
| Literal (s : string)
| NotObjectText (idx : nat)
    (* f"Instance at position {idx} is not a valid JSON object." *)
| MissingText (idx : nat) (missing : list string)
    (* f"Missing features in instance {idx}: {missing}" *)
| NotNumericText (f : string) (idx : nat).
    (* f"Value of '{f}' in instance {idx} is not numeric." *)

(** The error numbers of the [OSError]s the file system raises. *)
Inductive Errno : Type := ENOENT | EEXIST | ENOTDIR | EISDIR.

(** Exceptions.  [ValueError] and [FileNotFoundError] are raised by the
    program with a text of its own; [KeyError], [IndexError] and [TypeError]
    are raised by the interpreter; [OSError] by the file system, on a path;
    [UnpicklingError] and [JSONDecodeError] by [joblib.load] and [json.load]
    on a file they cannot decode; [Raised] is any exception coming out of
    another library call (the pipeline, the request parser), known by
    whether it is an instance of [ValueError] and by its text. *)
Inductive PyExc : Type :=
| ValueError (msg : Text)
| FileNotFoundError (msg : Text)
| KeyError (key : string)
| IndexError
| TypeError
| OSError (errno : Errno) (p : list string)
| UnpicklingError (p : list string)
| JSONDecodeError (p : list string)
| Raised (value_error : bool) (text : string).

(** [isinstance(e, ValueError)] *)
Definition isinstance_ValueError (e : PyExc) : bool :=
  match e with
  | ValueError _ => true
  | JSONDecodeError _ => true
  | Raised b _ => b
  | _ => false
  end.

Inductive Result (A : Type) : Type :=
| Return (a : A)
| Raise (e : PyExc).
Arguments Return {A} a.
Arguments Raise {A} e.

Definition bind {A B : Type} (m : Result A) (k : A -> Result B) : Result B :=
  match m with
  | Return a => k a
  | Raise e => Raise e
  end.

Declare Scope py_scope.
Delimit Scope py_scope with py.
Notation "x <~ m ; k" := (bind m (fun x => k))
  (at level 100, m at next level, right associativity) : py_scope.
Local Open Scope py_scope.

(** ** The builtins used on dicts and lists *)

(** The value bound to key [k] in [d], if the key is present. *)
Fixpoint dict_get (d : dict) (k : string) : option pyval :=
  match d with
  | [] => None
  | (k', v) :: d' => if String.eqb k' k then Some v else dict_get d' k
  end.

(** [k in d] *)
Definition dict_contains (d : dict) (k : string) : bool :=
  match dict_get d k with Some _ => true | None => false end.

(** [d[k]] *)
Definition dict_getitem (d : dict) (k : string) : Result pyval :=
  match dict_get d k with
  | Some v => Return v
  | None => Raise (KeyError k)
  end.

(** [l[i]] for a Python int [i]: a negative index counts from the end. *)
Definition list_getitem {A : Type} (l : list A) (i : Z) : Result A :=
  let n := Z.of_nat (length l) in
  let j := if (i <? 0)%Z then (i + n)%Z else i in
  if ((j <? 0) || (n <=? j))%Z then Raise IndexError
  else match l !! Z.to_nat j with
       | Some x => Return x
       | None => Raise IndexError
       end.

(** ** [app.py]: validation and matrix construction *)

(** The matrix [np.array(X_rows, dtype=float)]: a list of rows. *)
Definition matrix : Type := list (list float64).

Section BuildMatrix.

(** The builtin [float] on a decoded value: [None] when it raises (the
    source catches every [Exception] of the call alike). *)
Variable float : pyval -> option float64.

(** The feature schema read at start-up. *)
Variable FEATURE_ORDER : list string.

(** [missing = [f for f in FEATURE_ORDER if f not in row]] *)
Definition missing_features (row : dict) : list string :=
  List.filter (fun f => negb (dict_contains row f)) FEATURE_ORDER.

(** The inner loop [for f in FEATURE_ORDER: ...; values.append(v)], run on
    the features [fs] still to visit with [values] collected so far. *)
Fixpoint collect_values (idx : nat) (row : dict) (fs : list string)
         (values : list float64) : Result (list float64) :=
  match fs with
  | [] => Return values
  | f :: fs' =>
      v <~ dict_getitem row f;
      match float v with
      | Some x => collect_values idx row fs' (values ++ [x])
      | None => Raise (ValueError (NotNumericText f idx))
      end
  end.

(** The body of [for idx, row in enumerate(instances)], up to the row it
    appends to [X_rows]. *)
Definition build_row (idx : nat) (row : pyval) : Result (list float64) :=
  match row with
  | PDict r =>
      let missing := missing_features r in
      match missing with
      | _ :: _ => Raise (ValueError (MissingText idx missing))
      | [] => collect_values idx r FEATURE_ORDER []
      end
  | _ => Raise (ValueError (NotObjectText idx))
  end.

(** The loop over [enumerate(instances)], from position [idx] on, with the
    rows [X_rows] appended so far. *)
Fixpoint build_rows (idx : nat) (instances : list pyval) (X_rows : matrix)
  : Result matrix :=
  match instances with
  | [] => Return X_rows
  | row :: rest =>
      values <~ build_row idx row;
      build_rows (S idx) rest (X_rows ++ [values])
  end.

Definition _validate_and_build_matrix (instances : pyval) : Result matrix :=
  match instances with
  | PList (row :: rest) => build_rows 0 (row :: rest) []
  | _ => Raise (ValueError
           (Literal "The 'instances' field must be a non-empty list."))
  end.

(** *** Vocabulary of the statements about validation *)

(** The value of feature [f] in record [r] exists and [float] accepts it
    with result [x]. *)
Definition coerces_to (r : dict) (f : string) (x : float64) : Prop :=
  exists v, dict_get r f = Some v /\ float v = Some x.

(** A well-formed instance record: a flat mapping that binds every schema
    feature to a value [float] accepts. *)
Definition well_formed (row : pyval) : Prop :=
  exists r, row = PDict r /\
    forall f, f ∈ FEATURE_ORDER -> exists x, coerces_to r f x.

(** The same, as a test. *)
Definition well_formedb (row : pyval) : bool :=
  match row with
  | PDict r =>
      forallb (fun f => match dict_get r f with
                        | Some v => match float v with
                                    | Some _ => true
                                    | None => false
                                    end
                        | None => false
                        end) FEATURE_ORDER
  | _ => false
  end.

(** [xs] is the row of record [row]: the coerced values of the schema
    features, in schema order. *)
Definition row_values (row : pyval) (xs : list float64) : Prop :=
  exists r, row = PDict r /\ Forall2 (coerces_to r) FEATURE_ORDER xs.

End BuildMatrix.

(** The record position a validation text names, if it names one. *)
Definition text_position (t : Text) : option nat :=
  match t with
  | Literal _ => None
  | NotObjectText idx => Some idx
  | MissingText idx _ => Some idx
  | NotNumericText _ idx => Some idx
  end.

(** [r'] is [r] with further entries whose keys are outside [schema],
    inserted anywhere. *)
Inductive with_extra_keys (schema : list string) : dict -> dict -> Prop :=
| extra_nil : with_extra_keys schema [] []
| extra_keep k v r r' :
    with_extra_keys schema r r' ->
    with_extra_keys schema ((k, v) :: r) ((k, v) :: r')
| extra_key k v r r' :
    k ∉ schema ->
    with_extra_keys schema r r' ->
    with_extra_keys schema r ((k, v) :: r').

(** [row'] is the record [row] with extra keys outside [schema]. *)
Definition extended (schema : list string) (row row' : pyval) : Prop :=
  exists r r', row = PDict r /\ row' = PDict r' /\ with_extra_keys schema r r'.

(** [row'] holds the same entries as [row], in another order. *)
Definition reordered (row row' : pyval) : Prop :=
  exists r r', row = PDict r /\ row' = PDict r' /\
    NoDup (r.*1) /\ r ≡ₚ r'.

(** ** [app.py]: the prediction endpoint *)

(** The fitted pipeline, known by its two operations: [predict] (followed
    by [tolist]) and, when the attribute exists, [predict_proba]. *)
Record Pipeline : Type := {
  pipeline_predict : matrix -> Result (list Z);
  pipeline_predict_proba : option (matrix -> Result (list (list float64)))
}.

(** The string under the key ["error"] of an error response. *)
Inductive ErrorString : Type :=
| ErrLiteral (s : string)
| StrOf (e : PyExc)             (* str(e) *)
| InternalErrorOf (e : PyExc).  (* f"Internal error: {str(e)}" *)

(** What [jsonify] is given. *)
Inductive Body : Type :=
| JsonBody (resp : dict)
| ErrorBody (error : ErrorString).   (* {"error": error} *)

(** A response: the body and the status code. *)
Definition Response : Type := Body * nat.

(** [k in payload] for a string [k] and a decoded JSON value. *)
Definition py_contains (payload : pyval) (k : string) : Result bool :=
  match payload with
  | PDict d => Return (dict_contains d k)
  | PList l =>
      Return (existsb (fun x => match x with
                                | PStr s => String.eqb s k
                                | _ => false
                                end) l)
  | PStr s => Return (match index 0 k s with Some _ => true | None => false end)
  | _ => Raise TypeError
  end.

(** [payload[k]] for a string [k]. *)
Definition py_getitem (payload : pyval) (k : string) : Result pyval :=
  match payload with
  | PDict d => dict_getitem d k
  | _ => Raise TypeError
  end.

(** [[f(i) for i in l]] for an [f] that may raise. *)
Fixpoint comprehension {A B : Type} (f : A -> Result B) (l : list A)
  : Result (list B) :=
  match l with
  | [] => Return []
  | i :: l' => y <~ f i; ys <~ comprehension f l'; Return (y :: ys)
  end.

(** The probability matrix as a list of lists. *)
Definition probas_value (p : list (list float64)) : pyval :=
  PList ((fun row => PList (PFloat <$> row)) <$> p).

Section Predict.

Variable float : pyval -> option float64.
Variable FEATURE_ORDER : list string.
Variable CLASS_NAMES : list string.
Variable MODEL : Pipeline.

(** The [try] block from [MODEL.predict(X)] on. *)
Definition predict_matrix (X : matrix) : Result Response :=
  preds <~ pipeline_predict MODEL X;
  probas <~ match pipeline_predict_proba MODEL with
            | Some predict_proba => p <~ predict_proba X;
                                    Return (probas_value p)
            | None => Return PNone
            end;
  classes_str <~ comprehension (list_getitem CLASS_NAMES) preds;
  Return (JsonBody [("predictions", PList (PInt <$> preds));
                    ("classes", PList (PStr <$> classes_str));
                    ("probas", probas);
                    ("class_names", PList (PStr <$> CLASS_NAMES))],
          200).

(** The body of the [try] block; [get_json] is the outcome of
    [request.get_json(force=True, silent=False)]. *)
Definition predict_try (get_json : Result pyval) : Result Response :=
  payload <~ get_json;
  present <~ py_contains payload "instances";
  if negb present then
    Return (ErrorBody
              (ErrLiteral "JSON body must include the 'instances' key."),
            400)
  else
    instances <~ py_getitem payload "instances";
    X <~ _validate_and_build_matrix float FEATURE_ORDER instances;
    predict_matrix X.

(** The handler of [POST /predict] with its two [except] clauses. *)
Definition predict (get_json : Result pyval) : Response :=
  match predict_try get_json with
  | Return response => response
  | Raise e =>
      if isinstance_ValueError e then (ErrorBody (StrOf e), 400)
      else (ErrorBody (InternalErrorOf e), 500)
  end.

End Predict.

(** The request body [{"instances": instances}]. *)
Definition request_of (instances : list pyval) : Result pyval :=
  Return (PDict [("instances", PList instances)]).

(** ** The file system *)

(** An absolute path, as its components from the root. *)
Definition path : Type := list string.

(** What a regular file holds: a pipeline dumped by [joblib], or the JSON
    text of a value. *)
Inductive content : Type :=
| Joblib (model : Pipeline)
| JsonText (v : pyval).

Inductive node : Type :=
| Directory
| File (c : content).

(** The node at [p]; the root is a directory. *)
Definition node_at (fs : gmap path node) (p : path) : option node :=
  match p with
  | [] => Some Directory
  | _ => fs !! p
  end.

(** A [pathlib.Path]: relative to the working directory unless absolute. *)
Record Path : Type := {
  is_absolute : bool;
  parts : list string
}.

(** [p / name] *)
Definition joinpath (p : Path) (name : string) : Path :=
  {| is_absolute := is_absolute p; parts := parts p ++ [name] |}.

(** The absolute path [p] denotes in working directory [cwd], for parts
    that are plain names: a part [".."] is kept as a name here, where the
    system goes up to the parent, so the statements about the file system
    that need it ask for a [plain] path. *)
Definition resolve (cwd : path) (p : Path) : path :=
  if is_absolute p then parts p else cwd ++ parts p.

(** Code that reads and writes the file system: the outcome and the file
    system left behind (also when it raises). *)
Definition IO (A : Type) : Type := gmap path node -> Result A * gmap path node.

Definition io_bind {A B : Type} (m : IO A) (k : A -> IO B) : IO B :=
  fun fs =>
    match m fs with
    | (Return a, fs') => k a fs'
    | (Raise e, fs') => (Raise e, fs')
    end.

Notation "x <- m ;; k" := (io_bind m (fun x => k))
  (at level 100, m at next level, right associativity) : py_scope.

(** [Path.mkdir(parents=True, exist_ok=True)] on [target]: walks down from
    [above], creating each absent directory of [below]; a regular file on
    the way makes it raise. *)
Fixpoint mkdir_from (target above : path) (below : list string)
  : IO unit :=
  fun fs =>
    match below with
    | [] => (Return tt, fs)
    | name :: below' =>
        let p := above ++ [name] in
        match fs !! p with
        | Some Directory => mkdir_from target p below' fs
        | Some (File _) =>
            (Raise (OSError (match below' with
                             | [] => EEXIST
                             | _ => ENOTDIR
                             end) target), fs)
        | None => mkdir_from target p below' (<[p := Directory]> fs)
        end
    end.

Definition mkdir (p : path) : IO unit := mkdir_from p [] p.

(** Opening [p] for writing and writing [c]: creates or replaces the file. *)
Definition write_file (p : path) (c : content) : IO unit :=
  fun fs =>
    match node_at fs p with
    | Some Directory => (Raise (OSError EISDIR p), fs)
    | _ =>
        match node_at fs (removelast p) with
        | Some Directory => (Return tt, <[p := File c]> fs)
        | Some (File _) => (Raise (OSError ENOTDIR p), fs)
        | None => (Raise (OSError ENOENT p), fs)
        end
    end.

(** [Path.exists()] *)
Definition path_exists (fs : gmap path node) (p : path) : bool :=
  match node_at fs p with Some _ => true | None => false end.

(** [joblib.load(p)] *)
Definition joblib_load (fs : gmap path node) (p : path) : Result Pipeline :=
  match node_at fs p with
  | Some (File (Joblib model)) => Return model
  | Some (File (JsonText _)) => Raise (UnpicklingError p)
  | Some Directory => Raise (OSError EISDIR p)
  | None => Raise (OSError ENOENT p)
  end.

(** [json.load] on the file at [p] *)
Definition json_load (fs : gmap path node) (p : path) : Result pyval :=
  match node_at fs p with
  | Some (File (JsonText v)) => Return v
  | Some (File (Joblib _)) => Raise (JSONDecodeError p)
  | Some Directory => Raise (OSError EISDIR p)
  | None => Raise (OSError ENOENT p)
  end.

(** ** [train_model.py]: saving the artifacts *)

(** [{"feature_order": feature_names}] *)
Definition feature_record (feature_names : list string) : pyval :=
  PDict [("feature_order", PList (PStr <$> feature_names))].

(** [save_artifacts(model, feature_names, out_dir)], run in working
    directory [cwd].  The final [print] is not modelled. *)
Definition save_artifacts (cwd : path) (model : Pipeline)
           (feature_names : list string) (out_dir : Path) : IO unit :=
  let out := resolve cwd out_dir in
  _ <- mkdir out;;
  _ <- write_file (out ++ ["model.joblib"]) (Joblib model);;
  _ <- write_file (out ++ ["features.json"])
                  (JsonText (feature_record feature_names));;
  (fun fs => (Return tt, fs)).

(** ** [app.py]: loading the artifacts at start-up *)

(** [Path(".")] *)
Definition ARTIFACTS_DIR : Path := {| is_absolute := false; parts := [] |}.
Definition MODEL_PATH : Path := joinpath ARTIFACTS_DIR "model.joblib".
Definition FEATURES_PATH : Path := joinpath ARTIFACTS_DIR "features.json".

(** The module-level code of [app.py] up to [FEATURE_ORDER], run in working
    directory [cwd]: the loaded [MODEL] and [FEATURE_ORDER]. *)
Definition startup (cwd : path) (fs : gmap path node)
  : Result (Pipeline * pyval) :=
  if negb (path_exists fs (resolve cwd MODEL_PATH))
     || negb (path_exists fs (resolve cwd FEATURES_PATH))
  then Raise (FileNotFoundError (Literal
         "Artifacts not found (model.joblib / features.json). Run first: python train_model.py"))
  else
    MODEL <~ joblib_load fs (resolve cwd MODEL_PATH);
    record <~ json_load fs (resolve cwd FEATURES_PATH);
    FEATURE_ORDER <~ py_getitem record "feature_order";
    Return (MODEL, FEATURE_ORDER).

(** The names a loaded [FEATURE_ORDER] yields when the service iterates
    over it, provided it is a list of strings. *)
Fixpoint feature_names_of_list (l : list pyval) : option (list string) :=
  match l with
  | [] => Some []
  | PStr s :: l' => cons s <$> feature_names_of_list l'
  | _ => None
  end.

Definition feature_names_of (v : pyval) : option (list string) :=
  match v with
  | PList l => feature_names_of_list l
  | _ => None
  end.

(** No regular file sits at [p] or at one of its ancestors. *)
Definition no_file_on_the_way (fs : gmap path node) (p : path) : Prop :=
  forall q c, q `prefix_of` p -> fs !! q <> Some (File c).

(** ** A model of the builtin [float]

    What CPython's [float(v)] returns on a decoded JSON value, for values
    whose strings are ASCII: [None], lists and dicts raise [TypeError]; a
    [bool] is 1.0 or 0.0; an [int] is rounded to nearest-even and raises
    [OverflowError] when out of range; a [float] is returned as it is; a
    [str] is stripped of surrounding white space and read by the grammar
    [[sign] (number [exponent] | "inf" | "infinity" | "nan")], rounded to
    nearest-even, and raises [ValueError] otherwise.  The general results
    on validation below hold for any [float]; this model instantiates
    them. *)

Definition float_of_Z (z : Z) : float64 := binary_normalize 53 1024 z 0 false.

Definition is_space (c : ascii) : bool :=
  let n := nat_of_ascii c in
  ((9 <=? n)%nat && (n <=? 13)%nat) || (n =? 32)%nat.

Definition digit_of (c : ascii) : option Z :=
  let n := nat_of_ascii c in
  if ((48 <=? n)%nat && (n <=? 57)%nat) then Some (Z.of_nat (n - 48)) else None.

Definition lower (c : ascii) : ascii :=
  let n := nat_of_ascii c in
  if ((65 <=? n)%nat && (n <=? 90)%nat) then ascii_of_nat (n + 32) else c.

Fixpoint lstrip (s : list ascii) : list ascii :=
  match s with
  | c :: s' => if is_space c then lstrip s' else s
  | [] => []
  end.

Definition strip (s : list ascii) : list ascii :=
  rev (lstrip (rev (lstrip s))).

(** The digits of [("_"? digit)*] at the head of [s], and what follows. *)
Fixpoint digitpart_tail (s : list ascii) : list Z * list ascii :=
  match s with
  | [] => ([], [])
  | c :: s' =>
      match digit_of c with
      | Some d => let (ds, r) := digitpart_tail s' in (d :: ds, r)
      | None =>
          if Ascii.eqb c "_" then
            match s' with
            | c' :: s'' =>
                match digit_of c' with
                | Some d => let (ds, r) := digitpart_tail s'' in (d :: ds, r)
                | None => ([], s)
                end
            | [] => ([], s)
            end
          else ([], s)
      end
  end.

(** [digitpart ::= digit (["_"] digit)*] *)
Definition digitpart (s : list ascii) : option (list Z * list ascii) :=
  match s with
  | c :: s' =>
      match digit_of c with
      | Some d => let (ds, r) := digitpart_tail s' in Some (d :: ds, r)
      | None => None
      end
  | [] => None
  end.

(** [number ::= [digitpart] "." digitpart | digitpart ["."]]: the digits
    before the point, those after it, and what follows. *)
Definition number (s : list ascii) : option (list Z * list Z * list ascii) :=
  match digitpart s with
  | Some (ip, r) =>
      match r with
      | c :: r' =>
          if Ascii.eqb c "." then
            match digitpart r' with
            | Some (fp, r'') => Some (ip, fp, r'')
            | None => Some (ip, [], r')
            end
          else Some (ip, [], r)
      | [] => Some (ip, [], [])
      end
  | None =>
      match s with
      | c :: r' =>
          if Ascii.eqb c "." then
            match digitpart r' with
            | Some (fp, r'') => Some ([], fp, r'')
            | None => None
            end
          else None
      | [] => None
      end
  end.

(** An optional sign: whether it is ["-"], and what follows. *)
Definition sign (s : list ascii) : bool * list ascii :=
  match s with
  | c :: s' =>
      if Ascii.eqb c "-" then (true, s')
      else if Ascii.eqb c "+" then (false, s')
      else (false, s)
  | [] => (false, [])
  end.

Definition Z_of_digits (ds : list Z) : Z :=
  fold_left (fun acc d => (10 * acc + d)%Z) ds 0%Z.

(** [exponent ::= ("e" | "E") [sign] digitpart] *)
Definition exponent (s : list ascii) : option (Z * list ascii) :=
  match s with
  | c :: s' =>
      if Ascii.eqb (lower c) "e" then
        let (neg, s'') := sign s' in
        match digitpart s'' with
        | Some (ds, r) =>
            Some (if neg then (- Z_of_digits ds)%Z else Z_of_digits ds, r)
        | None => None
        end
      else None
  | [] => None
  end.

(** The binary64 number nearest to [(-1)^neg * m * 10^e]. *)
Definition decimal (neg : bool) (m e : Z) : float64 :=
  match m with
  | Zpos pm =>
      if (0 <=? e)%Z then
        binary_normalize 53 1024 (cond_Zopp neg (m * 10 ^ e)) 0 false
      else
        SFdiv 53 1024 (S754_finite neg pm 0)
                      (S754_finite false (Z.to_pos (10 ^ (- e))) 0)
  | _ => S754_zero neg
  end.

Definition float_of_str (s : string) : option float64 :=
  let (neg, body) := sign (strip (list_ascii_of_string s)) in
  let word := string_of_list_ascii (lower <$> body) in
  if String.eqb word "inf" || String.eqb word "infinity" then
    Some (S754_infinity neg)
  else if String.eqb word "nan" then Some S754_nan
  else
    match number body with
    | Some (ip, fp, r) =>
        let m := Z_of_digits (ip ++ fp) in
        let shift := Z.of_nat (length fp) in
        match r with
        | [] => Some (decimal neg m (- shift))
        | _ =>
            match exponent r with
            | Some (e, []) => Some (decimal neg m (e - shift))
            | _ => None
            end
        end
    | None => None
    end.

Definition py_float (v : pyval) : option float64 :=
  match v with
  | PNone => None
  | PBool b => Some (float_of_Z (if b then 1 else 0))
  | PInt z =>
      match float_of_Z z with
      | S754_infinity _ => None
      | x => Some x
      end
  | PFloat x => Some x
  | PStr s => float_of_str s
  | PList _ => None
  | PDict _ => None
  end.

(** ** Sample data

    The schema, the label set and the records of the examples in the
    docstrings of [app.py], cut down to two features. *)

Definition sample_schema : list string := ["alcohol"; "malic_acid"].

Definition sample_class_names : list string :=
  ["class_0"; "class_1"; "class_2"].

(** 13.2 and 1.78 as binary64 numbers. *)
Definition f13_2 : float64 := S754_finite false 7430939385161318 (-49).
Definition f1_78 : float64 := S754_finite false 8016407336719483 (-52).

(** A record whose keys come in another order than the schema's. *)
Definition sample_record : pyval :=
  PDict [("malic_acid", PFloat f1_78); ("alcohol", PStr "13.2")].

(** The same record with a key the schema does not know. *)
Definition sample_record_extra : pyval :=
  PDict [("vintage", PInt 1998); ("malic_acid", PFloat f1_78);
         ("alcohol", PStr "13.2")].

(** A record that lacks ["malic_acid"] and whose ["alcohol"] is not a
    number. *)
Definition sample_record_missing : pyval :=
  PDict [("alcohol", PStr "abc")].

(** A record that holds both features, one of them not a number. *)
Definition sample_record_abc : pyval :=
  PDict [("alcohol", PFloat f13_2); ("malic_acid", PStr "abc")].

(** 1.0 and 0.0 *)
Definition f1_0 : float64 := S754_finite false 4503599627370496 (-52).
Definition f0_0 : float64 := S754_zero false.

(** Whether a number is a NaN or an infinity. *)
Definition is_finite (x : float64) : bool :=
  match x with
  | S754_nan => false
  | S754_infinity _ => false
  | _ => true
  end.

(** A pipeline without [predict_proba] that puts every row in class 2. *)
Definition sample_model_no_proba : Pipeline :=
  {| pipeline_predict := fun X => Return ((fun _ => 2%Z) <$> X);
     pipeline_predict_proba := None |}.

(** A pipeline that puts every row in class 1, with probability 1. *)
Definition sample_model : Pipeline :=
  {| pipeline_predict := fun X => Return ((fun _ => 1%Z) <$> X);
     pipeline_predict_proba :=
       Some (fun X => Return ((fun _ => [f0_0; f1_0; f0_0]) <$> X)) |}.

(** A pipeline fitted on other labels: it answers class 7. *)
Definition sample_model_mismatched : Pipeline :=
  {| pipeline_predict := fun X => Return ((fun _ => 7%Z) <$> X);
     pipeline_predict_proba := None |}.

(** A pipeline fitted on thirteen features, which checks the width of its
    input as scikit-learn estimators do and raises a [ValueError] on rows
    of another width. *)
Definition sample_model_13_features : Pipeline :=
  {| pipeline_predict := fun X =>
       if forallb (fun row => Nat.eqb (length row) 13) X
       then Return ((fun _ => 0%Z) <$> X)
       else Raise (Raised true "X has 2 features, but StandardScaler is expecting 13 features as input.");
     pipeline_predict_proba := None |}.

(** The ValueErrors of the validation routine, as opposed to those raised
    elsewhere. *)
Definition validation_error (e : PyExc) : Prop :=
  exists msg, e = ValueError msg.

(** A class id outside the label set. *)
Definition out_of_range (CLASS_NAMES : list string) (p : Z) : Prop :=
  (p < - Z.of_nat (length CLASS_NAMES) \/ Z.of_nat (length CLASS_NAMES) <= p)%Z.

(** ** [app.py]: the status endpoint *)

(** The handler of [GET /], for the loaded schema. *)
Definition index (FEATURE_ORDER : list string) : Response :=
  (JsonBody [("message", PStr "Classification API (wine) is up");
             ("expected_features", PList (PStr <$> FEATURE_ORDER));
             ("predict_endpoint", PStr "/predict")],
   200).

(** The record a client builds from a list of names and a row of numbers:
    each name bound to the number at its place. *)
Definition record_of (names : list string) (xs : list float64) : pyval :=
  PDict (zip names (PFloat <$> xs)).

(** ** [train_model.py]: the entry point *)

Section Trainer.

(** The arrays of the data set and what [load_data] and [train_model] make
    of them are scikit-learn's; they are taken as given. *)
Variable Features Target : Type.
Variable load_data : Features * Target * list string.
Variable train_model : Features -> Target -> Pipeline.

(** [main()], run in working directory [cwd]; [save_artifacts] gets its
    default [out_dir="."]. *)
Definition main (cwd : path) : IO unit :=
  let '(X, y, feature_names) := load_data in
  let model := train_model X y in
  save_artifacts cwd model feature_names {| is_absolute := false; parts := [] |}.

End Trainer.

(** ** Plain paths *)

(** A part that names a child: not empty, not ["."], which [pathlib] drops,
    not [".."], which the system resolves to the parent, and without a
    separator. *)
Definition plain_name (name : string) : Prop :=
  name <> "" /\ name <> "." /\ name <> ".." /\ String.index 0 "/" name = None.

(** A path whose parts are all plain names. *)
Definition plain (p : Path) : Prop := Forall plain_name (parts p).

(** ** The JSON text of the features record

    What [json.dump(..., ensure_ascii=False, indent=2)] writes for the
    record of the feature names, and what [json.loads] reads from a text.
    The reader covers objects, arrays, strings and the three literals;
    numbers, and [\u] escapes of code points from 128 on, are outside this
    model. *)
















(** A pipeline that refuses a matrix with a NaN or an infinity, as
    scikit-learn estimators do, and puts every row in class 0 otherwise. *)
Definition sample_model_finite_only : Pipeline :=
  {| pipeline_predict := fun X =>
       if forallb (forallb is_finite) X then Return ((fun _ => 0%Z) <$> X)
       else Raise (Raised true "Input X contains NaN.");
     pipeline_predict_proba := None |}.

(** * Facts *)

(** Membership in a list written out. *)
Ltac in_list := apply list_elem_of_In; simpl; tauto.

(** Case analysis on a member of a list written out. *)
Ltac by_cases_on H :=
  apply list_elem_of_In in H; simpl in H;
  repeat (destruct H as [<-|H]; [try reflexivity|]); try contradiction.

(** ** The models at work *)

Example float_of_numeric_string : py_float (PStr "13.2") = Some f13_2.
Proof. reflexivity. Qed.

Example float_of_padded_string :
  py_float (PStr " -1_0.5e+1 ") = Some (float_of_Z (-105)).
Proof. reflexivity. Qed.

Example float_of_abc : py_float (PStr "abc") = None.
Proof. reflexivity. Qed.

Example float_of_huge_int : py_float (PInt (2 ^ 1024)) = None.
Proof. reflexivity. Qed.

Example float_of_huge_string :
  py_float (PStr "1e400") = Some (S754_infinity false).
Proof. reflexivity. Qed.

Example float_of_None : py_float PNone = None.
Proof. reflexivity. Qed.

Example matrix_in_schema_order :
  _validate_and_build_matrix py_float sample_schema
    (PList [sample_record; sample_record_extra])
  = Return [[f13_2; f1_78]; [f13_2; f1_78]].
Proof. reflexivity. Qed.

Example empty_batch_rejected :
  _validate_and_build_matrix py_float sample_schema (PList [])
  = Raise (ValueError
             (Literal "The 'instances' field must be a non-empty list.")).
Proof. reflexivity. Qed.

Example non_object_rejected :
  _validate_and_build_matrix py_float sample_schema
    (PList [sample_record; PInt 3])
  = Raise (ValueError (NotObjectText 1)).
Proof. reflexivity. Qed.

Example missing_before_non_numeric :
  _validate_and_build_matrix py_float sample_schema
    (PList [sample_record_missing])
  = Raise (ValueError (MissingText 0 ["malic_acid"])).
Proof. reflexivity. Qed.

Example payload_without_key :
  predict py_float sample_schema sample_class_names sample_model
          (Return (PDict []))
  = (ErrorBody (ErrLiteral "JSON body must include the 'instances' key."),
     400).
Proof. reflexivity. Qed.

Example negative_class_id_wraps :
  list_getitem sample_class_names (-1) = Return "class_2".
Proof. reflexivity. Qed.

(** ** Dicts *)

Lemma dict_contains_true r k :
  dict_contains r k = true <-> exists v, dict_get r k = Some v.
Proof.
  unfold dict_contains. destruct (dict_get r k) as [v|]; split.
  - eauto.
  - reflexivity.
  - discriminate.
  - intros [v Hv]. discriminate.
Qed.

Lemma dict_contains_false r k :
  dict_contains r k = false <-> dict_get r k = None.
Proof.
  unfold dict_contains. destruct (dict_get r k); split; congruence.
Qed.

(** A dict read as a finite map: [dict_get] is the lookup of the map the
    entries build, the first entry of a key winning. *)
Lemma dict_get_list_to_map (r : dict) k :
  dict_get r k = (list_to_map r : gmap string pyval) !! k.
Proof.
  induction r as [|[k' v] r IH]; simpl.
  - now rewrite lookup_empty.
  - destruct (String.eqb_spec k' k) as [->|Hne].
    + now rewrite lookup_insert_eq.
    + now rewrite lookup_insert_ne.
Qed.

(** The order of the entries of a dict does not matter to a lookup. *)
Lemma dict_get_Permutation (r r' : dict) k :
  NoDup (r.*1) -> r ≡ₚ r' -> dict_get r' k = dict_get r k.
Proof.
  intros Hnd Hperm. rewrite !dict_get_list_to_map.
  now rewrite (list_to_map_proper r r' Hnd Hperm).
Qed.

(** Entries under keys outside the schema do not matter to the lookup of a
    schema feature. *)
Lemma dict_get_with_extra_keys schema r r' f :
  with_extra_keys schema r r' -> f ∈ schema ->
  dict_get r' f = dict_get r f.
Proof.
  intros Hextra Hf. induction Hextra as [|k v r r' _ IH|k v r r' Hk _ IH]; simpl.
  - reflexivity.
  - now rewrite IH.
  - destruct (String.eqb_spec k f) as [->|_]; [contradiction|exact IH].
Qed.

(** ** Validation and matrix construction *)

Section BuildMatrixFacts.

Variable float : pyval -> option float64.
Variable FEATURE_ORDER : list string.

Lemma elem_of_missing_features r f :
  f ∈ missing_features FEATURE_ORDER r <->
  f ∈ FEATURE_ORDER /\ dict_get r f = None.
Proof.
  unfold missing_features.
  rewrite !list_elem_of_In, filter_In, negb_true_iff, dict_contains_false.
  reflexivity.
Qed.

Lemma missing_features_nil r :
  missing_features FEATURE_ORDER r = [] <->
  forall f, f ∈ FEATURE_ORDER -> dict_contains r f = true.
Proof.
  split.
  - intros Hnil f Hf.
    destruct (dict_contains r f) eqn:Hc; [reflexivity|].
    assert (Hin : f ∈ missing_features FEATURE_ORDER r).
    { apply elem_of_missing_features. split; [exact Hf|].
      now apply dict_contains_false. }
    rewrite Hnil in Hin. inversion Hin.
  - intros Hall.
    destruct (missing_features FEATURE_ORDER r) as [|f l] eqn:Hm; [reflexivity|].
    assert (Hin : f ∈ missing_features FEATURE_ORDER r) by (rewrite Hm; left).
    apply elem_of_missing_features in Hin as [Hf Hnone].
    apply Hall in Hf. apply dict_contains_false in Hnone. congruence.
Qed.

(** The missing list keeps the schema's order. *)
Lemma missing_features_sublist r :
  missing_features FEATURE_ORDER r `sublist_of` FEATURE_ORDER.
Proof.
  unfold missing_features. induction FEATURE_ORDER as [|f fs IH]; simpl.
  - constructor.
  - destruct (negb (dict_contains r f)).
    + now apply sublist_skip.
    + now apply sublist_cons.
Qed.

(** The inner loop succeeds exactly when every remaining feature has a
    coercible value, and then appends those values in schema order. *)
Lemma collect_values_Return idx r fs acc xs :
  collect_values float idx r fs acc = Return xs <->
  exists ys, xs = acc ++ ys /\ Forall2 (coerces_to float r) fs ys.
Proof.
  revert acc. induction fs as [|f fs IH]; intros acc; simpl.
  - split.
    + intros [= <-]. exists []. rewrite app_nil_r. split; [reflexivity|constructor].
    + intros (ys & -> & HF). inversion HF. now rewrite app_nil_r.
  - unfold dict_getitem. destruct (dict_get r f) as [v|] eqn:Hget; simpl.
    + destruct (float v) as [x|] eqn:Hfl.
      * rewrite IH. split.
        -- intros (ys & -> & HF). exists (x :: ys). split.
           ++ now rewrite <- app_assoc.
           ++ constructor; [exists v; auto | exact HF].
        -- intros (ys & -> & HF). inversion HF as [|? y ? ys' Hc HF']; subst.
           destruct Hc as (v' & Hv' & Hx). rewrite Hget in Hv'.
           injection Hv' as <-. rewrite Hfl in Hx. injection Hx as <-.
           exists ys'. split; [now rewrite <- app_assoc | exact HF'].
      * split; [discriminate|].
        intros (ys & _ & HF). inversion HF as [|? y ? ys' Hc HF']; subst.
        destruct Hc as (v' & Hv' & Hx). congruence.
    + split; [discriminate|].
      intros (ys & _ & HF). inversion HF as [|? y ? ys' Hc HF']; subst.
      destruct Hc as (v' & Hv' & Hx). congruence.
Qed.

(** When every remaining feature is present, the inner loop fails exactly
    at the first feature whose value [float] rejects. *)
Lemma collect_values_Raise idx r fs acc e :
  (forall f, f ∈ fs -> dict_contains r f = true) ->
  collect_values float idx r fs acc = Raise e <->
  exists fs1 f fs2 v,
    fs = fs1 ++ f :: fs2 /\
    (forall g, g ∈ fs1 -> exists x, coerces_to float r g x) /\
    dict_get r f = Some v /\ float v = None /\
    e = ValueError (NotNumericText f idx).
Proof.
  revert acc. induction fs as [|f fs IH]; intros acc Hall; simpl.
  - split; [discriminate|].
    intros (fs1 & g & fs2 & v & Heq & _). now destruct fs1.
  - assert (Hf : dict_contains r f = true) by (apply Hall; left).
    apply dict_contains_true in Hf as [v Hget].
    unfold dict_getitem. rewrite Hget. simpl.
    destruct (float v) as [x|] eqn:Hfl.
    + rewrite IH by (intros g Hg; apply Hall; now right). split.
      * intros (fs1 & g & fs2 & w & -> & Hpre & Hw & Hnone & ->).
        exists (f :: fs1), g, fs2, w. repeat split; auto.
        intros h Hh. apply elem_of_cons in Hh as [->|Hh]; [|now apply Hpre].
        exists x, v. auto.
      * intros (fs1 & g & fs2 & w & Heq & Hpre & Hw & Hnone & ->).
        destruct fs1 as [|f' fs1]; simpl in Heq.
        -- injection Heq as -> ->. congruence.
        -- injection Heq as -> ->. exists fs1, g, fs2, w.
           repeat split; auto. intros h Hh. apply Hpre. now right.
    + split.
      * intros [= <-]. exists [], f, fs, v. repeat split; auto.
        intros g Hg. inversion Hg.
      * intros (fs1 & g & fs2 & w & Heq & Hpre & Hw & Hnone & ->).
        destruct fs1 as [|f' fs1]; simpl in Heq.
        -- now injection Heq as -> ->.
        -- injection Heq as -> ->.
           destruct (Hpre f') as (x & v' & Hv' & Hx); [left|]. congruence.
Qed.

End BuildMatrixFacts.

Section BuildRowFacts.

Variable float : pyval -> option float64.
Variable FEATURE_ORDER : list string.

Lemma well_formedb_spec row :
  well_formedb float FEATURE_ORDER row = true <->
  well_formed float FEATURE_ORDER row.
Proof.
  unfold well_formed, well_formedb. split.
  - destruct row as [| | | | | |r]; try discriminate.
    intros Hall. exists r. split; [reflexivity|]. intros f Hf.
    rewrite forallb_forall in Hall. apply list_elem_of_In, Hall in Hf.
    destruct (dict_get r f) as [v|] eqn:Hv; [|discriminate].
    destruct (float v) as [x|] eqn:Hx; [|discriminate].
    exists x, v. auto.
  - intros (r & -> & Hall). apply forallb_forall. intros f Hf.
    apply list_elem_of_In, Hall in Hf as (x & v & -> & ->). reflexivity.
Qed.

(** A record that binds every feature of [fs] to a coercible value has a
    list of coerced values. *)
Lemma coerces_to_all r fs :
  (forall f, f ∈ fs -> exists x, coerces_to float r f x) ->
  exists xs, Forall2 (coerces_to float r) fs xs.
Proof.
  induction fs as [|f fs IH]; intros Hall.
  - exists []. constructor.
  - destruct (Hall f) as [x Hx]; [left|].
    destruct IH as [xs Hxs]; [intros g Hg; apply Hall; now right|].
    exists (x :: xs). now constructor.
Qed.

Lemma coerces_to_present r fs xs f :
  Forall2 (coerces_to float r) fs xs -> f ∈ fs ->
  exists x, coerces_to float r f x.
Proof.
  intros HF Hf. apply list_elem_of_lookup in Hf as [j Hj].
  destruct (Forall2_lookup_l _ _ _ _ _ HF Hj) as (x & _ & Hx). eauto.
Qed.

(** The loop body returns the row of the record, whatever its position. *)
Lemma build_row_Return idx row xs :
  build_row float FEATURE_ORDER idx row = Return xs <->
  row_values float FEATURE_ORDER row xs.
Proof.
  unfold row_values. split.
  - destruct row as [| | | | | |r]; try discriminate. simpl.
    destruct (missing_features FEATURE_ORDER r) eqn:Hm; [|discriminate].
    intros Hc. apply collect_values_Return in Hc as (ys & -> & HF).
    exists r. auto.
  - intros (r & -> & HF). simpl.
    assert (Hm : missing_features FEATURE_ORDER r = []).
    { apply missing_features_nil. intros f Hf. apply dict_contains_true.
      destruct (coerces_to_present _ _ _ _ HF Hf) as (x & v & Hv & _). eauto. }
    rewrite Hm. apply collect_values_Return. exists xs. auto.
Qed.

Lemma well_formed_row_values row :
  well_formed float FEATURE_ORDER row <->
  exists xs, row_values float FEATURE_ORDER row xs.
Proof.
  unfold well_formed, row_values. split.
  - intros (r & -> & Hall). destruct (coerces_to_all r _ Hall) as [xs Hxs].
    exists xs, r. auto.
  - intros (xs & r & -> & HF). exists r. split; [reflexivity|].
    intros f Hf. exact (coerces_to_present _ _ _ _ HF Hf).
Qed.

(** A record is well formed exactly when the loop body accepts it. *)
Lemma well_formed_build_row idx row :
  well_formed float FEATURE_ORDER row <->
  exists xs, build_row float FEATURE_ORDER idx row = Return xs.
Proof.
  rewrite well_formed_row_values.
  split; intros [xs H]; exists xs; now apply (build_row_Return idx).
Qed.

(** A record lacking a schema feature is reported with its missing list. *)
Lemma build_row_missing idx r f :
  f ∈ FEATURE_ORDER -> dict_get r f = None ->
  build_row float FEATURE_ORDER idx (PDict r) =
  Raise (ValueError (MissingText idx (missing_features FEATURE_ORDER r))).
Proof.
  intros Hf Hnone. simpl.
  destruct (missing_features FEATURE_ORDER r) as [|g l] eqn:Hm; [|reflexivity].
  assert (Hin : f ∈ missing_features FEATURE_ORDER r)
    by now apply elem_of_missing_features.
  rewrite Hm in Hin. inversion Hin.
Qed.

(** A record holding every schema feature fails, if at all, at the first
    feature in schema order whose value [float] rejects. *)
Lemma build_row_complete_Raise idx r e :
  (forall f, f ∈ FEATURE_ORDER -> dict_contains r f = true) ->
  build_row float FEATURE_ORDER idx (PDict r) = Raise e <->
  exists fs1 f fs2 v,
    FEATURE_ORDER = fs1 ++ f :: fs2 /\
    (forall g, g ∈ fs1 -> exists x, coerces_to float r g x) /\
    dict_get r f = Some v /\ float v = None /\
    e = ValueError (NotNumericText f idx).
Proof.
  intros Hall. simpl.
  rewrite (proj2 (missing_features_nil FEATURE_ORDER r) Hall).
  now apply collect_values_Raise.
Qed.

(** Whatever the loop body raises is a [ValueError] whose text names the
    position of the record. *)
Lemma build_row_Raise idx row e :
  build_row float FEATURE_ORDER idx row = Raise e ->
  exists msg, e = ValueError msg /\ text_position msg = Some idx.
Proof.
  destruct row as [| | | | | |r]; simpl;
    try (intros [= <-]; eexists; split; reflexivity).
  destruct (missing_features FEATURE_ORDER r) as [|g l] eqn:Hm.
  - intros Hc. apply collect_values_Raise in Hc
      as (fs1 & f & fs2 & v & _ & _ & _ & _ & ->).
    + eexists; split; reflexivity.
    + now apply missing_features_nil.
  - intros [= <-]. eexists; split; reflexivity.
Qed.

(** The outcome of the loop body depends on the record only through its
    lookups of schema features. *)
Lemma collect_values_ext idx r r' fs acc :
  (forall f, f ∈ fs -> dict_get r' f = dict_get r f) ->
  collect_values float idx r' fs acc = collect_values float idx r fs acc.
Proof.
  revert acc. induction fs as [|f fs IH]; intros acc Hext; simpl.
  - reflexivity.
  - unfold dict_getitem. rewrite (Hext f) by left.
    destruct (dict_get r f) as [v|]; simpl; [|reflexivity].
    destruct (float v); [|reflexivity].
    apply IH. intros g Hg. apply Hext. now right.
Qed.

Lemma missing_features_ext r r' :
  (forall f, f ∈ FEATURE_ORDER -> dict_get r' f = dict_get r f) ->
  missing_features FEATURE_ORDER r' = missing_features FEATURE_ORDER r.
Proof.
  unfold missing_features. induction FEATURE_ORDER as [|f fs IH]; intros Hext.
  - reflexivity.
  - simpl. rewrite IH by (intros g Hg; apply Hext; now right).
    unfold dict_contains at 1. rewrite (Hext f) by left. reflexivity.
Qed.

Lemma build_row_ext idx r r' :
  (forall f, f ∈ FEATURE_ORDER -> dict_get r' f = dict_get r f) ->
  build_row float FEATURE_ORDER idx (PDict r') =
  build_row float FEATURE_ORDER idx (PDict r).
Proof.
  intros Hext. simpl. rewrite (missing_features_ext _ _ Hext).
  now rewrite (collect_values_ext idx r r' FEATURE_ORDER [] Hext).
Qed.

(** *** The loop over the batch *)

(** Past a prefix of accepted records the loop goes on with their rows
    appended. *)
Lemma build_rows_prefix idx pre rest acc X :
  Forall2 (row_values float FEATURE_ORDER) pre X ->
  build_rows float FEATURE_ORDER idx (pre ++ rest) acc =
  build_rows float FEATURE_ORDER (idx + length pre) rest (acc ++ X).
Proof.
  intros HF. revert idx acc.
  induction HF as [|row xs pre X Hrow _ IH]; intros idx acc; simpl.
  - now rewrite Nat.add_0_r, app_nil_r.
  - apply (build_row_Return idx) in Hrow. rewrite Hrow. simpl.
    rewrite IH, <- app_assoc. simpl. f_equal. lia.
Qed.

Lemma build_rows_Return idx instances acc X :
  Forall2 (row_values float FEATURE_ORDER) instances X ->
  build_rows float FEATURE_ORDER idx instances acc = Return (acc ++ X).
Proof.
  intros HF. rewrite <- (app_nil_r instances).
  now rewrite (build_rows_prefix idx instances [] acc X HF).
Qed.

(** The loop stops at the first record its body rejects, with the body's
    exception; the records after it play no part. *)
Lemma build_rows_first_Raise idx pre row post acc e :
  Forall (well_formed float FEATURE_ORDER) pre ->
  build_row float FEATURE_ORDER (idx + length pre) row = Raise e ->
  build_rows float FEATURE_ORDER idx (pre ++ row :: post) acc = Raise e.
Proof.
  intros Hpre Hrow.
  assert (HX : exists X, Forall2 (row_values float FEATURE_ORDER) pre X).
  { clear Hrow. induction Hpre as [|r pre Hr _ [X HX]].
    - exists []. constructor.
    - apply well_formed_row_values in Hr as [xs Hxs].
      exists (xs :: X). now constructor. }
  destruct HX as [X HX]. rewrite (build_rows_prefix idx pre _ acc X HX).
  simpl. now rewrite Hrow.
Qed.

(** A batch is made of well-formed records only, or splits at its first
    record that is not. *)
Lemma first_offender instances :
  Forall (well_formed float FEATURE_ORDER) instances \/
  exists pre row post,
    instances = pre ++ row :: post /\
    Forall (well_formed float FEATURE_ORDER) pre /\
    ~ well_formed float FEATURE_ORDER row.
Proof.
  induction instances as [|row rest IH].
  - left. constructor.
  - destruct (well_formedb float FEATURE_ORDER row) eqn:Hb.
    + apply well_formedb_spec in Hb.
      destruct IH as [Hall|(pre & bad & post & -> & Hpre & Hbad)].
      * left. now constructor.
      * right. exists (row :: pre), bad, post. repeat split; auto.
    + right. exists [], row, rest. repeat split; [constructor|].
      intros Hwf. apply well_formedb_spec in Hwf. congruence.
Qed.

End BuildRowFacts.

(** *** The whole routine *)

Section ValidationFacts.

Variable float : pyval -> option float64.
Variable FEATURE_ORDER : list string.

Lemma validate_nonempty instances :
  instances <> [] ->
  _validate_and_build_matrix float FEATURE_ORDER (PList instances) =
  build_rows float FEATURE_ORDER 0 instances [].
Proof. destruct instances; [congruence|reflexivity]. Qed.

Lemma well_formed_all_row_values instances :
  Forall (well_formed float FEATURE_ORDER) instances ->
  exists X, Forall2 (row_values float FEATURE_ORDER) instances X.
Proof.
  induction 1 as [|row rest Hrow _ [X HX]].
  - exists []. constructor.
  - apply well_formed_row_values in Hrow as [xs Hxs].
    exists (xs :: X). now constructor.
Qed.

(** Records the loop body treats alike give the same outcome of the loop. *)
Lemma build_rows_ext idx instances instances' acc :
  Forall2 (fun row row' => forall i,
             build_row float FEATURE_ORDER i row' =
             build_row float FEATURE_ORDER i row) instances instances' ->
  build_rows float FEATURE_ORDER idx instances' acc =
  build_rows float FEATURE_ORDER idx instances acc.
Proof.
  intros HF. revert idx acc.
  induction HF as [|row row' rest rest' Hrow _ IH]; intros idx acc; simpl.
  - reflexivity.
  - rewrite Hrow. destruct (build_row float FEATURE_ORDER idx row); simpl.
    + apply IH.
    + reflexivity.
Qed.

Lemma validate_ext instances instances' :
  Forall2 (fun row row' => forall i,
             build_row float FEATURE_ORDER i row' =
             build_row float FEATURE_ORDER i row) instances instances' ->
  _validate_and_build_matrix float FEATURE_ORDER (PList instances') =
  _validate_and_build_matrix float FEATURE_ORDER (PList instances).
Proof.
  intros HF. destruct HF as [|row row' rest rest' Hrow HF]; [reflexivity|].
  rewrite !validate_nonempty by discriminate.
  apply build_rows_ext. now constructor.
Qed.

(** A record that is not well formed makes the loop body raise. *)
Lemma not_well_formed_Raise idx row :
  ~ well_formed float FEATURE_ORDER row ->
  exists msg, build_row float FEATURE_ORDER idx row = Raise (ValueError msg) /\
              text_position msg = Some idx.
Proof.
  intros Hnot. destruct (build_row float FEATURE_ORDER idx row) as [xs|e] eqn:Hb.
  - exfalso. apply Hnot. apply (well_formed_build_row _ _ idx). eauto.
  - apply build_row_Raise in Hb as (msg & -> & Hpos). eauto.
Qed.

(** A batch holding a record that is not well formed fails validation with
    a [ValueError], wherever the record stands. *)
Lemma validate_fails pre row post :
  ~ well_formed float FEATURE_ORDER row ->
  exists msg,
    _validate_and_build_matrix float FEATURE_ORDER (PList (pre ++ row :: post))
    = Raise (ValueError msg).
Proof.
  intros Hnot. rewrite validate_nonempty by (now destruct pre).
  destruct (first_offender float FEATURE_ORDER pre)
    as [Hpre|(pre1 & bad & pre2 & -> & Hpre1 & Hbad)].
  - destruct (not_well_formed_Raise (0 + length pre) row Hnot) as (msg & Hb & _).
    exists msg. now apply build_rows_first_Raise.
  - destruct (not_well_formed_Raise (0 + length pre1) bad Hbad) as (msg & Hb & _).
    exists msg. rewrite <- app_assoc. simpl. now apply build_rows_first_Raise.
Qed.

(** C2. For a non-empty batch of well-formed records the routine returns a
    matrix with one row per record and one column per schema feature, whose
    entry at row [i], column [j] is the float coercion of the value record
    [i] binds to the [j]-th schema feature; the matrix is the same when the
    entries of the records come in another order. *)
Theorem build_matrix_well_formed (instances : list pyval) :
  instances <> [] ->
  Forall (well_formed float FEATURE_ORDER) instances ->
  exists X,
    _validate_and_build_matrix float FEATURE_ORDER (PList instances) = Return X /\
    length X = length instances /\
    Forall (fun xs => length xs = length FEATURE_ORDER) X /\
    (forall i j r f,
        instances !! i = Some (PDict r) -> FEATURE_ORDER !! j = Some f ->
        exists xs v x,
          X !! i = Some xs /\ xs !! j = Some x /\
          dict_get r f = Some v /\ float v = Some x) /\
    (forall instances',
        Forall2 reordered instances instances' ->
        _validate_and_build_matrix float FEATURE_ORDER (PList instances')
        = Return X).
Proof.
  intros Hne Hwf.
  destruct (well_formed_all_row_values instances Hwf) as [X HX].
  assert (Hres : _validate_and_build_matrix float FEATURE_ORDER (PList instances)
                 = Return X).
  { rewrite validate_nonempty by exact Hne.
    now rewrite (build_rows_Return float FEATURE_ORDER 0 instances [] X HX). }
  exists X. split; [exact Hres|]. split; [|split; [|split]].
  - symmetry. exact (Forall2_length _ _ _ HX).
  - apply Forall_forall. intros xs Hxs.
    apply list_elem_of_lookup in Hxs as [i Hi].
    destruct (Forall2_lookup_r _ _ _ _ _ HX Hi) as (row & _ & r & _ & HF).
    symmetry. exact (Forall2_length _ _ _ HF).
  - intros i j r f Hi Hj.
    destruct (Forall2_lookup_l _ _ _ _ _ HX Hi) as (xs & Hxs & r' & [= <-] & HF).
    destruct (Forall2_lookup_l _ _ _ _ _ HF Hj) as (x & Hx & v & Hv & Hfl).
    exists xs, v, x. auto.
  - intros instances' Hre. etrans; [|exact Hres]. apply validate_ext.
    eapply Forall2_impl; [exact Hre|].
    intros row row' (r & r' & -> & -> & Hnd & Hperm) i.
    apply build_row_ext. intros f _. now apply dict_get_Permutation.
Qed.

(** C3. A flat record that lacks a schema feature makes validation fail;
    when no record before it is at fault, the error names its 0-indexed
    position and the list of the schema features it lacks, which holds
    exactly those features, in schema order. *)
Theorem missing_features_reported (pre post : list pyval) (r : dict)
        (f : string) :
  f ∈ FEATURE_ORDER -> dict_get r f = None ->
  (forall before, exists msg,
      _validate_and_build_matrix float FEATURE_ORDER
        (PList (before ++ PDict r :: post)) = Raise (ValueError msg)) /\
  (Forall (well_formed float FEATURE_ORDER) pre ->
   _validate_and_build_matrix float FEATURE_ORDER
     (PList (pre ++ PDict r :: post))
   = Raise (ValueError
              (MissingText (length pre) (missing_features FEATURE_ORDER r)))) /\
  (forall g, g ∈ missing_features FEATURE_ORDER r <->
             g ∈ FEATURE_ORDER /\ dict_get r g = None) /\
  missing_features FEATURE_ORDER r `sublist_of` FEATURE_ORDER.
Proof.
  intros Hf Hnone.
  assert (Hb : forall idx, build_row float FEATURE_ORDER idx (PDict r) =
    Raise (ValueError (MissingText idx (missing_features FEATURE_ORDER r))))
    by (intros idx; now apply (build_row_missing _ _ idx r f)).
  split; [|split; [|split]].
  - intros before. apply validate_fails.
    intros Hwf. apply (well_formed_build_row _ _ 0) in Hwf as [xs Hxs].
    rewrite Hb in Hxs. discriminate.
  - intros Hpre. rewrite validate_nonempty by (now destruct pre).
    apply build_rows_first_Raise; [exact Hpre|]. apply Hb.
  - intros g. apply elem_of_missing_features.
  - apply missing_features_sublist.
Qed.

(** C4. A record that holds every schema feature but binds one of them to a
    value [float] rejects makes validation fail; when no record before it
    is at fault, the error names the position of the record and the first
    feature in schema order whose value is rejected, which is the given
    feature when no other value of the record is rejected. *)
Theorem non_numeric_reported (pre post : list pyval) (r : dict)
        (f : string) (v : pyval) :
  (forall g, g ∈ FEATURE_ORDER -> dict_contains r g = true) ->
  f ∈ FEATURE_ORDER -> dict_get r f = Some v -> float v = None ->
  (forall before, exists msg,
      _validate_and_build_matrix float FEATURE_ORDER
        (PList (before ++ PDict r :: post)) = Raise (ValueError msg)) /\
  (Forall (well_formed float FEATURE_ORDER) pre ->
   exists fs1 f0 fs2 v0,
     FEATURE_ORDER = fs1 ++ f0 :: fs2 /\
     (forall g, g ∈ fs1 -> exists x, coerces_to float r g x) /\
     dict_get r f0 = Some v0 /\ float v0 = None /\
     _validate_and_build_matrix float FEATURE_ORDER
       (PList (pre ++ PDict r :: post))
     = Raise (ValueError (NotNumericText f0 (length pre)))) /\
  (Forall (well_formed float FEATURE_ORDER) pre ->
   (forall g w, g ∈ FEATURE_ORDER -> dict_get r g = Some w ->
                float w = None -> g = f) ->
   _validate_and_build_matrix float FEATURE_ORDER
     (PList (pre ++ PDict r :: post))
   = Raise (ValueError (NotNumericText f (length pre)))).
Proof.
  intros Hall Hf Hv Hrej.
  assert (Hnot : ~ well_formed float FEATURE_ORDER (PDict r)).
  { intros (r' & [= <-] & Hco). destruct (Hco f Hf) as (x & v' & Hv' & Hx).
    congruence. }
  assert (Hfirst : Forall (well_formed float FEATURE_ORDER) pre ->
    exists fs1 f0 fs2 v0,
     FEATURE_ORDER = fs1 ++ f0 :: fs2 /\
     (forall g, g ∈ fs1 -> exists x, coerces_to float r g x) /\
     dict_get r f0 = Some v0 /\ float v0 = None /\
     _validate_and_build_matrix float FEATURE_ORDER
       (PList (pre ++ PDict r :: post))
     = Raise (ValueError (NotNumericText f0 (length pre)))).
  { intros Hpre.
    destruct (not_well_formed_Raise (0 + length pre) _ Hnot) as (msg & Hb & _).
    pose proof Hb as Hb'.
    apply build_row_complete_Raise in Hb'
      as (fs1 & f0 & fs2 & v0 & Heq & Hco & Hv0 & Hrej0 & [= ->]);
      [|exact Hall].
    exists fs1, f0, fs2, v0. repeat split; auto.
    rewrite validate_nonempty by (now destruct pre).
    now apply build_rows_first_Raise. }
  split; [|split].
  - intros before. now apply validate_fails.
  - exact Hfirst.
  - intros Hpre Honly.
    destruct (Hfirst Hpre) as (fs1 & f0 & fs2 & v0 & Heq & _ & Hv0 & Hrej0 & Hres).
    rewrite Hres. do 3 f_equal. apply (Honly f0 v0); auto.
    rewrite Heq. apply elem_of_app. right. left.
Qed.

(** C7. Keys outside the schema change nothing: a batch whose records carry
    extra keys gets the outcome of the batch without them, and for a
    non-empty batch of well-formed records that outcome is the same
    matrix. *)
Theorem extra_keys_ignored (instances instances' : list pyval) :
  Forall2 (extended FEATURE_ORDER) instances instances' ->
  _validate_and_build_matrix float FEATURE_ORDER (PList instances')
  = _validate_and_build_matrix float FEATURE_ORDER (PList instances) /\
  (instances <> [] ->
   Forall (well_formed float FEATURE_ORDER) instances ->
   exists X,
     _validate_and_build_matrix float FEATURE_ORDER (PList instances)
     = Return X /\
     _validate_and_build_matrix float FEATURE_ORDER (PList instances')
     = Return X).
Proof.
  intros Hext.
  assert (Heq : _validate_and_build_matrix float FEATURE_ORDER (PList instances')
              = _validate_and_build_matrix float FEATURE_ORDER (PList instances)).
  { apply validate_ext. eapply Forall2_impl; [exact Hext|].
    intros row row' (r & r' & -> & -> & Hextra) i.
    apply build_row_ext. intros f Hf.
    exact (dict_get_with_extra_keys _ _ _ _ Hextra Hf). }
  split; [exact Heq|]. intros Hne Hwf.
  destruct (well_formed_all_row_values instances Hwf) as [X HX].
  assert (Hres : _validate_and_build_matrix float FEATURE_ORDER (PList instances)
                 = Return X).
  { rewrite validate_nonempty by exact Hne.
    apply (build_rows_Return float FEATURE_ORDER 0 instances [] X HX). }
  exists X. split; [exact Hres|]. etrans; [exact Heq|exact Hres].
Qed.

(** C9. A batch with a record that is not well formed splits at its first
    such record: the one error raised is that of this record and names its
    position, whatever follows it in the batch; and when this record is a
    flat mapping that lacks a schema feature the error is the
    missing-features one, listing the absent features in schema order,
    whatever its values are. *)
Theorem first_violation_reported (instances : list pyval) :
  Exists (fun row => ~ well_formed float FEATURE_ORDER row) instances ->
  exists pre row post msg,
    instances = pre ++ row :: post /\
    Forall (well_formed float FEATURE_ORDER) pre /\
    ~ well_formed float FEATURE_ORDER row /\
    build_row float FEATURE_ORDER (length pre) row = Raise (ValueError msg) /\
    text_position msg = Some (length pre) /\
    (forall after,
        _validate_and_build_matrix float FEATURE_ORDER
          (PList (pre ++ row :: after)) = Raise (ValueError msg)) /\
    (forall r f,
        row = PDict r -> f ∈ FEATURE_ORDER -> dict_get r f = None ->
        msg = MissingText (length pre) (missing_features FEATURE_ORDER r) /\
        missing_features FEATURE_ORDER r `sublist_of` FEATURE_ORDER /\
        forall g, msg <> NotNumericText g (length pre)).
Proof.
  intros Hex.
  destruct (first_offender float FEATURE_ORDER instances)
    as [Hall|(pre & row & post & -> & Hpre & Hbad)].
  - exfalso. apply Exists_exists in Hex as (row & Hin & Hnot).
    rewrite Forall_forall in Hall. exact (Hnot (Hall row Hin)).
  - destruct (not_well_formed_Raise (length pre) row Hbad) as (msg & Hb & Hpos).
    exists pre, row, post, msg.
    split; [reflexivity|]. split; [exact Hpre|]. split; [exact Hbad|].
    split; [exact Hb|]. split; [exact Hpos|]. split.
    + intros after. rewrite validate_nonempty by (now destruct pre).
      now apply build_rows_first_Raise.
    + intros r f -> Hf Hnone.
      rewrite (build_row_missing float FEATURE_ORDER (length pre) r f Hf Hnone)
        in Hb.
      injection Hb as <-. split; [reflexivity|]. split.
      * apply missing_features_sublist.
      * intros g. discriminate.
Qed.

End ValidationFacts.

(** ** The prediction endpoint *)

Lemma comprehension_Return {A B : Type} (f : A -> Result B) l ys :
  comprehension f l = Return ys <-> Forall2 (fun i y => f i = Return y) l ys.
Proof.
  revert ys. induction l as [|i l IH]; intros ys; simpl.
  - split.
    + intros [= <-]. constructor.
    + intros HF. inversion HF. reflexivity.
  - destruct (f i) as [y|e] eqn:Hfi; simpl.
    + destruct (comprehension f l) as [ys'|e] eqn:Hc; simpl.
      * split.
        -- intros [= <-]. constructor; [exact Hfi|]. now apply IH.
        -- intros HF. inversion HF as [|? y' ? ys'' Hy HF']; subst.
           apply IH in HF'. congruence.
      * split; [discriminate|].
        intros HF. inversion HF as [|? y' ? ys'' Hy HF']; subst.
        apply IH in HF'. discriminate.
    + split; [discriminate|].
      intros HF. inversion HF as [|? y' ? ys'' Hy HF']; subst. congruence.
Qed.

(** A comprehension whose function raises one exception only, raises it as
    soon as the function fails on an element. *)
Lemma comprehension_Raise {A B : Type} (f : A -> Result B) l i e :
  (forall j e', f j = Raise e' -> e' = e) ->
  i ∈ l -> f i = Raise e -> comprehension f l = Raise e.
Proof.
  intros Honly Hin Hfi. induction l as [|j l IH]; [inversion Hin|]. simpl.
  destruct (f j) as [y|e'] eqn:Hfj; simpl.
  - apply elem_of_cons in Hin as [->|Hin]; [congruence|].
    now rewrite (IH Hin).
  - f_equal. now apply (Honly j).
Qed.

(** The index lookup in the label set: an [IndexError] outside the range,
    the label counted from the front or from the end inside it. *)
Lemma list_getitem_out_of_range CLASS_NAMES p :
  out_of_range CLASS_NAMES p -> list_getitem CLASS_NAMES p = Raise IndexError.
Proof.
  unfold out_of_range, list_getitem. intros Hout.
  destruct (p <? 0)%Z eqn:Hneg.
  - apply Z.ltb_lt in Hneg.
    destruct Hout as [Hlow|Hhigh]; [|lia].
    replace (p + Z.of_nat (length CLASS_NAMES) <? 0)%Z with true
      by (symmetry; apply Z.ltb_lt; lia).
    reflexivity.
  - apply Z.ltb_ge in Hneg.
    destruct Hout as [Hlow|Hhigh]; [lia|].
    replace (Z.of_nat (length CLASS_NAMES) <=? p)%Z with true
      by (symmetry; apply Z.leb_le; lia).
    now rewrite orb_true_r.
Qed.

Lemma list_getitem_Raise {A : Type} (l : list A) p e :
  list_getitem l p = Raise e -> e = IndexError.
Proof.
  unfold list_getitem.
  destruct (_ || _); [congruence|].
  destruct (l !! _); [discriminate|congruence].
Qed.

Lemma list_getitem_nonneg {A : Type} (l : list A) p c :
  (0 <= p)%Z -> list_getitem l p = Return c -> l !! Z.to_nat p = Some c.
Proof.
  unfold list_getitem. intros Hp.
  replace (p <? 0)%Z with false by (symmetry; apply Z.ltb_ge; lia).
  destruct (_ || _); [discriminate|].
  destruct (l !! Z.to_nat p); [congruence|discriminate].
Qed.

Section PredictFacts.

Variable float : pyval -> option float64.
Variable FEATURE_ORDER : list string.
Variable CLASS_NAMES : list string.
Variable MODEL : Pipeline.

(** What a returning [predict_matrix] went through. *)
Lemma predict_matrix_Return X response :
  predict_matrix CLASS_NAMES MODEL X = Return response ->
  exists preds probas classes_str,
    pipeline_predict MODEL X = Return preds /\
    match pipeline_predict_proba MODEL with
    | Some predict_proba =>
        exists p, predict_proba X = Return p /\ probas = probas_value p
    | None => probas = PNone
    end /\
    comprehension (list_getitem CLASS_NAMES) preds = Return classes_str /\
    response = (JsonBody [("predictions", PList (PInt <$> preds));
                          ("classes", PList (PStr <$> classes_str));
                          ("probas", probas);
                          ("class_names", PList (PStr <$> CLASS_NAMES))],
                200).
Proof.
  unfold predict_matrix.
  destruct (pipeline_predict MODEL X) as [preds|e] eqn:Hpred;
    [simpl|discriminate].
  destruct (pipeline_predict_proba MODEL) as [predict_proba|].
  - destruct (predict_proba X) as [p|e] eqn:Hp; [simpl|discriminate].
    destruct (comprehension (list_getitem CLASS_NAMES) preds)
      as [classes_str|e] eqn:Hcls; [simpl|discriminate].
    intros [= <-]. exists preds, (probas_value p), classes_str.
    split; [reflexivity|]. split; [exists p; auto|]. split; [exact Hcls|].
    reflexivity.
  - simpl.
    destruct (comprehension (list_getitem CLASS_NAMES) preds)
      as [classes_str|e] eqn:Hcls; [simpl|discriminate].
    intros [= <-]. exists preds, PNone, classes_str.
    split; [reflexivity|]. split; [reflexivity|]. split; [exact Hcls|].
    reflexivity.
Qed.

(** What a returning [try] block went through: the early return on a
    payload without the key, or validation followed by prediction. *)
Lemma predict_try_Return get_json response :
  predict_try float FEATURE_ORDER CLASS_NAMES MODEL get_json = Return response ->
  response = (ErrorBody
                (ErrLiteral "JSON body must include the 'instances' key."),
              400) \/
  exists d instances X,
    get_json = Return (PDict d) /\
    dict_get d "instances" = Some instances /\
    _validate_and_build_matrix float FEATURE_ORDER instances = Return X /\
    predict_matrix CLASS_NAMES MODEL X = Return response.
Proof.
  unfold predict_try.
  destruct get_json as [payload|e]; [simpl|discriminate].
  destruct (py_contains payload "instances") as [present|e] eqn:Hc;
    [simpl|discriminate].
  destruct present; simpl; [|intros [= <-]; now left].
  destruct payload as [| | | | | |d]; simpl; try discriminate.
  unfold dict_getitem.
  destruct (dict_get d "instances") as [instances|] eqn:Hget;
    [simpl|discriminate].
  destruct (_validate_and_build_matrix float FEATURE_ORDER instances)
    as [X|e] eqn:Hval; [simpl|discriminate].
  intros Hp. right. exists d, instances, X. auto.
Qed.

(** A response with status 200 is one the [try] block returned. *)
Lemma predict_200 get_json body :
  predict float FEATURE_ORDER CLASS_NAMES MODEL get_json = (body, 200) ->
  predict_try float FEATURE_ORDER CLASS_NAMES MODEL get_json
  = Return (body, 200).
Proof.
  unfold predict.
  destruct (predict_try _ _ _ _ get_json) as [response|e].
  - now intros ->.
  - destruct (isinstance_ValueError e); discriminate.
Qed.

Lemma predict_200_inv get_json body :
  predict float FEATURE_ORDER CLASS_NAMES MODEL get_json = (body, 200) ->
  exists d instances X preds probas classes_str,
    get_json = Return (PDict d) /\
    dict_get d "instances" = Some instances /\
    _validate_and_build_matrix float FEATURE_ORDER instances = Return X /\
    pipeline_predict MODEL X = Return preds /\
    match pipeline_predict_proba MODEL with
    | Some predict_proba =>
        exists p, predict_proba X = Return p /\ probas = probas_value p
    | None => probas = PNone
    end /\
    comprehension (list_getitem CLASS_NAMES) preds = Return classes_str /\
    body = JsonBody [("predictions", PList (PInt <$> preds));
                     ("classes", PList (PStr <$> classes_str));
                     ("probas", probas);
                     ("class_names", PList (PStr <$> CLASS_NAMES))].
Proof.
  intros Hp. apply predict_200, predict_try_Return in Hp
    as [[=]|(d & instances & X & Hj & Hd & Hval & Hm)].
  apply predict_matrix_Return in Hm
    as (preds & probas & classes_str & Hpred & Hprob & Hcls & [= ->]).
  exists d, instances, X, preds, probas, classes_str. auto 10.
Qed.

End PredictFacts.

Section ResponseFacts.

Variable float : pyval -> option float64.
Variable FEATURE_ORDER : list string.
Variable CLASS_NAMES : list string.
Variable MODEL : Pipeline.

(** What the loop returns is the accumulated rows followed by the rows of
    the records, in their order. *)
Lemma build_rows_Return_inv idx instances acc X :
  build_rows float FEATURE_ORDER idx instances acc = Return X ->
  exists Y, X = acc ++ Y /\ Forall2 (row_values float FEATURE_ORDER) instances Y.
Proof.
  revert idx acc. induction instances as [|row rest IH]; intros idx acc; simpl.
  - intros [= <-]. exists []. rewrite app_nil_r. split; [reflexivity|constructor].
  - destruct (build_row float FEATURE_ORDER idx row) as [xs|e] eqn:Hrow;
      [simpl|discriminate].
    intros Hrest. apply IH in Hrest as (Y & -> & HF).
    exists (xs :: Y). split; [now rewrite <- app_assoc|].
    constructor; [|exact HF]. now apply (build_row_Return float FEATURE_ORDER idx).
Qed.

Lemma validate_Return_inv instances X :
  _validate_and_build_matrix float FEATURE_ORDER instances = Return X ->
  exists rows, instances = PList rows /\ rows <> [] /\
               Forall2 (row_values float FEATURE_ORDER) rows X.
Proof.
  destruct instances as [| | | | |rows|]; try discriminate.
  destruct rows as [|row rest]; [discriminate|].
  unfold _validate_and_build_matrix. intros Hb.
  apply build_rows_Return_inv in Hb as (Y & -> & HF).
  exists (row :: rest). split; [reflexivity|]. split; [discriminate|exact HF].
Qed.

(** The validation routine raises nothing but its own [ValueError]s. *)
Lemma build_rows_Raise idx instances acc e :
  build_rows float FEATURE_ORDER idx instances acc = Raise e ->
  validation_error e.
Proof.
  revert idx acc. induction instances as [|row rest IH]; intros idx acc; simpl.
  - discriminate.
  - destruct (build_row float FEATURE_ORDER idx row) as [xs|e'] eqn:Hrow; simpl.
    + apply IH.
    + intros [= <-]. apply build_row_Raise in Hrow as (msg & -> & _).
      now exists msg.
Qed.

Lemma validate_Raise instances e :
  _validate_and_build_matrix float FEATURE_ORDER instances = Raise e ->
  validation_error e.
Proof.
  destruct instances as [| | | | |rows|];
    try (intros [= <-]; eexists; reflexivity).
  destruct rows as [|row rest]; [intros [= <-]; eexists; reflexivity|].
  apply build_rows_Raise.
Qed.

(** C1, as the code has it. When the pipeline has no [predict_proba], every response
    with status 200 carries the four keys, and under ["probas"] the value
    [None], which [jsonify] writes as null: the field is present. *)
Theorem probas_null_without_predict_proba (get_json : Result pyval)
        (body : Body) :
  pipeline_predict_proba MODEL = None ->
  predict float FEATURE_ORDER CLASS_NAMES MODEL get_json = (body, 200) ->
  exists resp,
    body = JsonBody resp /\
    resp.*1 = ["predictions"; "classes"; "probas"; "class_names"] /\
    dict_contains resp "probas" = true /\
    dict_get resp "probas" = Some PNone.
Proof.
  intros Hnone Hp. apply predict_200_inv in Hp
    as (d & instances & X & preds & probas & classes_str
        & _ & _ & _ & _ & Hprob & _ & ->).
  rewrite Hnone in Hprob. subst probas.
  eexists. split; [reflexivity|]. repeat split.
Qed.

(** C5. In every response with status 200 the predictions are what the
    pipeline answers on the matrix whose rows are the rows of the input
    records in input order, and [classes[i]] is
    [CLASS_NAMES[predictions[i]]] for every [i]; with a pipeline that
    answers one class id per row, both lists are as long as the input. *)
Theorem classes_follow_predictions (get_json : Result pyval) (body : Body) :
  (forall X preds,
      pipeline_predict MODEL X = Return preds -> length preds = length X) ->
  predict float FEATURE_ORDER CLASS_NAMES MODEL get_json = (body, 200) ->
  exists d instances X preds probas classes_str,
    get_json = Return (PDict d) /\
    dict_get d "instances" = Some (PList instances) /\
    body = JsonBody [("predictions", PList (PInt <$> preds));
                     ("classes", PList (PStr <$> classes_str));
                     ("probas", probas);
                     ("class_names", PList (PStr <$> CLASS_NAMES))] /\
    Forall2 (row_values float FEATURE_ORDER) instances X /\
    pipeline_predict MODEL X = Return preds /\
    length preds = length instances /\
    length classes_str = length instances /\
    (forall i p,
        preds !! i = Some p ->
        exists c, classes_str !! i = Some c /\
                  list_getitem CLASS_NAMES p = Return c /\
                  ((0 <= p)%Z -> CLASS_NAMES !! Z.to_nat p = Some c)).
Proof.
  intros Hlen Hp. apply predict_200_inv in Hp
    as (d & v & X & preds & probas & classes_str
        & -> & Hd & Hval & Hpred & _ & Hcls & ->).
  apply validate_Return_inv in Hval as (instances & -> & _ & HX).
  apply comprehension_Return in Hcls.
  assert (Hn : length preds = length instances).
  { rewrite (Hlen X preds Hpred). symmetry. exact (Forall2_length _ _ _ HX). }
  exists d, instances, X, preds, probas, classes_str.
  split; [reflexivity|]. split; [exact Hd|]. split; [reflexivity|].
  split; [exact HX|]. split; [exact Hpred|]. split; [exact Hn|]. split.
  - rewrite <- Hn. symmetry. exact (Forall2_length _ _ _ Hcls).
  - intros i p Hi.
    destruct (Forall2_lookup_l _ _ _ _ _ Hcls Hi) as (c & Hc & Hget).
    exists c. split; [exact Hc|]. split; [exact Hget|].
    intros Hpos. now apply list_getitem_nonneg.
Qed.

(** The two [except] clauses: an exception of the [try] block that is not
    an instance of [ValueError] is answered with status 500 and the text
    "Internal error: " followed by the exception's own text; one that is an
    instance of [ValueError], wherever it was raised, with status 400 and
    its text.  The validation routine raises only its own [ValueError]s,
    and a class id outside the label set raises [IndexError], answered
    with 500. *)
Lemma except_clauses (get_json : Result pyval) (e : PyExc) :
  predict_try float FEATURE_ORDER CLASS_NAMES MODEL get_json = Raise e ->
  (isinstance_ValueError e = false ->
   predict float FEATURE_ORDER CLASS_NAMES MODEL get_json
   = (ErrorBody (InternalErrorOf e), 500)) /\
  (isinstance_ValueError e = true ->
   predict float FEATURE_ORDER CLASS_NAMES MODEL get_json
   = (ErrorBody (StrOf e), 400)) /\
  (forall instances e',
      _validate_and_build_matrix float FEATURE_ORDER instances = Raise e' ->
      validation_error e' /\ isinstance_ValueError e' = true) /\
  (forall X preds p,
      pipeline_predict MODEL X = Return preds ->
      match pipeline_predict_proba MODEL with
      | Some predict_proba => exists P, predict_proba X = Return P
      | None => True
      end ->
      p ∈ preds -> out_of_range CLASS_NAMES p ->
      predict_matrix CLASS_NAMES MODEL X = Raise IndexError /\
      isinstance_ValueError IndexError = false).
Proof.
  intros Htry. split; [|split; [|split]].
  - intros Hcls. unfold predict. now rewrite Htry, Hcls.
  - intros Hcls. unfold predict. now rewrite Htry, Hcls.
  - intros instances e' Hval. apply validate_Raise in Hval as Hv.
    split; [exact Hv|]. destruct Hv as [msg ->]. reflexivity.
  - intros X preds p Hpred Hprob Hin Hout. split; [|reflexivity].
    unfold predict_matrix. rewrite Hpred. simpl.
    assert (Hc : comprehension (list_getitem CLASS_NAMES) preds
                 = Raise IndexError).
    { apply (comprehension_Raise _ preds p).
      - intros j e'. apply list_getitem_Raise.
      - exact Hin.
      - now apply list_getitem_out_of_range. }
    destruct (pipeline_predict_proba MODEL) as [predict_proba|].
    + destruct Hprob as [P ->]. simpl. now rewrite Hc.
    + simpl. now rewrite Hc.
Qed.

End ResponseFacts.

(** C1 as stated fails: the response of a pipeline without [predict_proba]
    has the key ["probas"], bound to [None]; the field is not absent. *)
Lemma probas_present_as_null :
  pipeline_predict_proba sample_model_no_proba = None /\
  exists resp,
    predict py_float sample_schema sample_class_names sample_model_no_proba
            (request_of [sample_record]) = (JsonBody resp, 200) /\
    dict_contains resp "probas" = true /\
    dict_get resp "probas" = Some PNone.
Proof.
  split; [reflexivity|]. eexists. split; [reflexivity|]. split; reflexivity.
Qed.

(** C6. A failure that is not a validation error should be answered with
    status 500.  Here the batch passes validation and the pipeline, fitted
    on another schema than the one loaded, raises a [ValueError] during
    prediction: the first [except] clause takes it and the answer has
    status 400. *)
Lemma pipeline_ValueError_gets_400 :
  let e := Raised true
    "X has 2 features, but StandardScaler is expecting 13 features as input." in
  _validate_and_build_matrix py_float sample_schema (PList [sample_record])
  = Return [[f13_2; f1_78]] /\
  predict_try py_float sample_schema sample_class_names
              sample_model_13_features (request_of [sample_record])
  = Raise e /\
  ~ validation_error e /\
  predict py_float sample_schema sample_class_names sample_model_13_features
          (request_of [sample_record]) = (ErrorBody (StrOf e), 400).
Proof.
  repeat split. intros [msg Hmsg]. discriminate.
Qed.

(** ** Reading back the JSON text of the features record *)





















(** ** Saving and loading the artifacts *)

(** With no regular file on the way, [mkdir_from] returns, leaves a
    directory at the end of the walk, and touches nothing off the walk. *)
Lemma mkdir_from_ok target below : forall above fs,
  (forall q c, q `prefix_of` above ++ below -> fs !! q <> Some (File c)) ->
  exists fs',
    mkdir_from target above below fs = (Return tt, fs') /\
    (below <> [] -> fs' !! (above ++ below) = Some Directory) /\
    (forall q, ~ q `prefix_of` above ++ below -> fs' !! q = fs !! q).
Proof.
  induction below as [|name below IH]; intros above fs Hclear; simpl.
  - exists fs. split; [reflexivity|]. split; [congruence|auto].
  - set (p := above ++ [name]).
    assert (Hpath : p ++ below = above ++ name :: below)
      by (unfold p; now rewrite <- app_assoc).
    assert (Hp : p `prefix_of` above ++ name :: below)
      by (exists below; now rewrite <- Hpath).
    assert (Hlast : forall fs1 : gmap path node,
               fs1 !! p = Some Directory ->
               below = [] -> fs1 !! (above ++ [name]) = Some Directory)
      by (intros fs1 H1 _; exact H1).
    destruct (fs !! p) as [[|c]|] eqn:Hnode.
    + destruct (IH p fs) as (fs' & Hrun & Hdir & Hoff).
      { intros q c. rewrite Hpath. apply Hclear. }
      exists fs'. split; [exact Hrun|]. split.
      * intros _. destruct below as [|n2 rest].
        -- simpl in Hrun. injection Hrun as <-. exact Hnode.
        -- rewrite <- Hpath. now apply Hdir.
      * intros q Hq. apply Hoff. now rewrite Hpath.
    + exfalso. exact (Hclear p c Hp Hnode).
    + destruct (IH p (<[p := Directory]> fs)) as (fs' & Hrun & Hdir & Hoff).
      { intros q c Hq. destruct (decide (p = q)) as [<-|Hne].
        - now rewrite lookup_insert_eq.
        - rewrite lookup_insert_ne by exact Hne.
          apply Hclear. now rewrite <- Hpath. }
      exists fs'. split; [exact Hrun|]. split.
      * intros _. destruct below as [|n2 rest].
        -- simpl in Hrun. injection Hrun as <-. apply lookup_insert_eq.
        -- rewrite <- Hpath. now apply Hdir.
      * intros q Hq. rewrite Hoff by (now rewrite Hpath).
        apply lookup_insert_ne. intros <-. exact (Hq Hp).
Qed.

Lemma mkdir_ok p fs :
  no_file_on_the_way fs p ->
  exists fs',
    mkdir p fs = (Return tt, fs') /\
    node_at fs' p = Some Directory /\
    (forall q, ~ q `prefix_of` p -> fs' !! q = fs !! q).
Proof.
  intros Hclear. destruct (mkdir_from_ok p p [] fs Hclear)
    as (fs' & Hrun & Hdir & Hoff).
  exists fs'. split; [exact Hrun|]. split; [|exact Hoff].
  destruct p as [|n p]; [reflexivity|]. simpl. now apply Hdir.
Qed.

(** A file is written into an existing directory unless a directory bears
    its name. *)
Lemma write_file_ok dir name c fs :
  node_at fs dir = Some Directory ->
  fs !! (dir ++ [name]) <> Some Directory ->
  write_file (dir ++ [name]) c fs
  = (Return tt, <[dir ++ [name] := File c]> fs).
Proof.
  intros Hdir Hfree. unfold write_file.
  assert (Hat : node_at fs (dir ++ [name]) = fs !! (dir ++ [name]))
    by (now destruct dir).
  rewrite Hat, removelast_last, Hdir.
  destruct (fs !! (dir ++ [name])) as [[|c']|]; [congruence|reflexivity..].
Qed.

Lemma not_prefix_of_child (dir : path) name : ~ (dir ++ [name]) `prefix_of` dir.
Proof.
  intros [k Hk]. apply (f_equal length) in Hk.
  rewrite !length_app in Hk. simpl in Hk. lia.
Qed.

Lemma feature_names_of_strs names :
  feature_names_of (PList (PStr <$> names)) = Some names.
Proof.
  unfold feature_names_of. induction names as [|s names IH].
  - reflexivity.
  - rewrite fmap_cons. cbn [feature_names_of_list]. now rewrite IH.
Qed.


(** ** The statements at the sample data *)

Lemma sample_record_well_formed :
  well_formed py_float sample_schema sample_record.
Proof. apply well_formedb_spec. reflexivity. Qed.

Lemma sample_record_missing_not_well_formed :
  ~ well_formed py_float sample_schema sample_record_missing.
Proof. intros H. apply well_formedb_spec in H. discriminate. Qed.

(** C2 at the sample data. *)
Lemma build_matrix_well_formed_witness :
  [sample_record; sample_record_extra] <> [] /\
  Forall (well_formed py_float sample_schema)
         [sample_record; sample_record_extra] /\
  exists X,
    _validate_and_build_matrix py_float sample_schema
      (PList [sample_record; sample_record_extra]) = Return X /\
    length X = 2.
Proof.
  assert (H1 : [sample_record; sample_record_extra] <> []) by discriminate.
  assert (H2 : Forall (well_formed py_float sample_schema)
                      [sample_record; sample_record_extra])
    by (repeat constructor; apply well_formedb_spec; reflexivity).
  split; [exact H1|]. split; [exact H2|].
  destruct (build_matrix_well_formed py_float sample_schema _ H1 H2)
    as (X & HX & Hlen & _).
  exists X. split; [exact HX|exact Hlen].
Defined.

(** C3 at the sample data. *)
Lemma missing_features_reported_witness :
  "malic_acid" ∈ sample_schema /\
  dict_get [("alcohol", PStr "abc")] "malic_acid" = None /\
  _validate_and_build_matrix py_float sample_schema
    (PList [sample_record; sample_record_missing; sample_record_abc])
  = Raise (ValueError (MissingText 1 ["malic_acid"])).
Proof.
  assert (H1 : "malic_acid" ∈ sample_schema) by in_list.
  assert (H2 : dict_get [("alcohol", PStr "abc")] "malic_acid" = None)
    by reflexivity.
  split; [exact H1|]. split; [exact H2|].
  destruct (missing_features_reported py_float sample_schema
              [sample_record] [sample_record_abc] _ _ H1 H2)
    as (_ & Hres & _).
  apply Hres. repeat constructor. exact sample_record_well_formed.
Defined.

(** C4 at the sample data. *)
Lemma non_numeric_reported_witness :
  (forall g, g ∈ sample_schema ->
     dict_contains [("alcohol", PFloat f13_2); ("malic_acid", PStr "abc")] g
     = true) /\
  "malic_acid" ∈ sample_schema /\
  dict_get [("alcohol", PFloat f13_2); ("malic_acid", PStr "abc")] "malic_acid"
  = Some (PStr "abc") /\
  py_float (PStr "abc") = None /\
  _validate_and_build_matrix py_float sample_schema
    (PList [sample_record; sample_record_abc; sample_record_missing])
  = Raise (ValueError (NotNumericText "malic_acid" 1)).
Proof.
  assert (H1 : forall g, g ∈ sample_schema ->
     dict_contains [("alcohol", PFloat f13_2); ("malic_acid", PStr "abc")] g
     = true) by (intros g Hg; by_cases_on Hg).
  assert (H2 : "malic_acid" ∈ sample_schema) by in_list.
  split; [exact H1|]. split; [exact H2|]. split; [reflexivity|].
  split; [reflexivity|].
  destruct (non_numeric_reported py_float sample_schema
              [sample_record] [sample_record_missing] _ _ _ H1 H2
              eq_refl eq_refl) as (_ & _ & Hres).
  apply Hres.
  - repeat constructor. exact sample_record_well_formed.
  - intros g w Hg. by_cases_on Hg. intros [= <-]. discriminate.
Defined.

(** C7 at the sample data. *)
Lemma extra_keys_ignored_witness :
  Forall2 (extended sample_schema) [sample_record] [sample_record_extra] /\
  _validate_and_build_matrix py_float sample_schema (PList [sample_record_extra])
  = _validate_and_build_matrix py_float sample_schema (PList [sample_record]).
Proof.
  assert (H1 : Forall2 (extended sample_schema)
                       [sample_record] [sample_record_extra]).
  { constructor; [|constructor]. do 2 eexists.
    split; [reflexivity|]. split; [reflexivity|].
    apply extra_key; [|repeat constructor].
    intros Hin. apply list_elem_of_In in Hin. simpl in Hin.
    destruct Hin as [Hin|[Hin|[]]]; discriminate. }
  split; [exact H1|].
  exact (proj1 (extra_keys_ignored py_float sample_schema _ _ H1)).
Defined.

(** C9 at the sample data. *)
Lemma first_violation_reported_witness :
  Exists (fun row => ~ well_formed py_float sample_schema row)
         [sample_record; sample_record_missing; sample_record_abc] /\
  exists pre row post msg,
    [sample_record; sample_record_missing; sample_record_abc]
    = pre ++ row :: post /\
    text_position msg = Some (length pre) /\
    _validate_and_build_matrix py_float sample_schema (PList (pre ++ [row]))
    = Raise (ValueError msg).
Proof.
  assert (H1 : Exists (fun row => ~ well_formed py_float sample_schema row)
                 [sample_record; sample_record_missing; sample_record_abc]).
  { apply Exists_cons_tl, Exists_cons_hd.
    exact sample_record_missing_not_well_formed. }
  split; [exact H1|].
  destruct (first_violation_reported py_float sample_schema _ H1)
    as (pre & row & post & msg & Heq & _ & _ & _ & Hpos & Hres & _).
  exists pre, row, post, msg.
  split; [exact Heq|]. split; [exact Hpos|]. apply Hres.
Defined.

(** C1 at the sample data. *)
Lemma probas_null_without_predict_proba_witness :
  let response :=
    predict py_float sample_schema sample_class_names sample_model_no_proba
            (request_of [sample_record]) in
  pipeline_predict_proba sample_model_no_proba = None /\
  response = (response.1, 200) /\
  exists resp, response.1 = JsonBody resp /\
               dict_get resp "probas" = Some PNone.
Proof.
  intros response. split; [reflexivity|]. split; [reflexivity|].
  destruct (probas_null_without_predict_proba py_float sample_schema
              sample_class_names sample_model_no_proba
              (request_of [sample_record]) response.1 eq_refl eq_refl)
    as (resp & Hbody & _ & _ & Hnull).
  exists resp. split; [exact Hbody|exact Hnull].
Defined.

(** C5 at the sample data. *)
Lemma classes_follow_predictions_witness :
  let response :=
    predict py_float sample_schema sample_class_names sample_model
            (request_of [sample_record; sample_record_extra]) in
  (forall X preds,
      pipeline_predict sample_model X = Return preds ->
      length preds = length X) /\
  response = (response.1, 200) /\
  exists classes_str probas,
    response.1 = JsonBody
      [("predictions", PList [PInt 1; PInt 1]);
       ("classes", PList (PStr <$> classes_str));
       ("probas", probas);
       ("class_names", PList (PStr <$> sample_class_names))] /\
    length classes_str = 2.
Proof.
  intros response.
  assert (H1 : forall X preds,
             pipeline_predict sample_model X = Return preds ->
             length preds = length X)
    by (intros X preds [= <-]; apply length_fmap).
  split; [exact H1|]. split; [reflexivity|].
  destruct (classes_follow_predictions py_float sample_schema
              sample_class_names sample_model
              (request_of [sample_record; sample_record_extra])
              response.1 H1 eq_refl)
    as (d & instances & X & preds & probas & classes_str
        & Hd & Hi & Hbody & _ & _ & _ & Hlen & _).
  injection Hd as <-. injection Hi as <-.
  exists classes_str, probas. split; [|exact Hlen].
  rewrite Hbody. injection Hbody as Hpreds _ _. now rewrite Hpreds.
Defined.

(** A class id outside the label set is answered with status 500. *)
Lemma mismatched_labels_get_500 :
  predict_try py_float sample_schema sample_class_names
              sample_model_mismatched (request_of [sample_record])
  = Raise IndexError /\
  isinstance_ValueError IndexError = false /\
  predict py_float sample_schema sample_class_names sample_model_mismatched
          (request_of [sample_record])
  = (ErrorBody (InternalErrorOf IndexError), 500).
Proof.
  split; [reflexivity|]. split; [reflexivity|].
  exact (proj1 (except_clauses py_float sample_schema
                  sample_class_names sample_model_mismatched
                  (request_of [sample_record]) IndexError eq_refl) eq_refl).
Defined.


(** * Further properties *)

(** ** Validation *)

Section MoreValidationFacts.

Variable float : pyval -> option float64.
Variable FEATURE_ORDER : list string.

(** An exception of the loop names a position inside the part of the batch
    the loop was given. *)
Lemma build_rows_Raise_position idx instances acc e :
  build_rows float FEATURE_ORDER idx instances acc = Raise e ->
  exists msg i,
    e = ValueError msg /\ text_position msg = Some (idx + i) /\
    i < length instances.
Proof.
  revert idx acc. induction instances as [|row rest IH]; intros idx acc; simpl.
  - discriminate.
  - destruct (build_row float FEATURE_ORDER idx row) as [xs|e'] eqn:Hrow; simpl.
    + intros Hrest. apply IH in Hrest as (msg & i & -> & Hpos & Hi).
      exists msg, (S i). split; [reflexivity|]. split; [|lia].
      rewrite Hpos. f_equal. lia.
    + intros [= <-]. apply build_row_Raise in Hrow as (msg & -> & Hpos).
      exists msg, 0. split; [reflexivity|]. split; [|lia].
      rewrite Hpos. f_equal. lia.
Qed.

Lemma validate_Return rows X :
  rows <> [] ->
  Forall2 (row_values float FEATURE_ORDER) rows X ->
  _validate_and_build_matrix float FEATURE_ORDER (PList rows) = Return X.
Proof.
  intros Hne HX. rewrite validate_nonempty by exact Hne.
  apply (build_rows_Return float FEATURE_ORDER 0 rows [] X HX).
Qed.

(** X1. Validation returns a matrix exactly on a non-empty list of
    well-formed records, and the matrix is then the list of their rows. *)
Theorem validation_succeeds_iff (instances : pyval) (X : matrix) :
  _validate_and_build_matrix float FEATURE_ORDER instances = Return X <->
  exists rows,
    instances = PList rows /\ rows <> [] /\
    Forall2 (row_values float FEATURE_ORDER) rows X.
Proof.
  split.
  - apply validate_Return_inv.
  - intros (rows & -> & Hne & HX). now apply validate_Return.
Qed.

(** X2. The error about the non-empty list is raised exactly when the
    input is not a list or is the empty list; on a non-empty list every
    error is a [ValueError] whose text names a record position inside the
    list instead. *)
Theorem nonempty_list_required (instances : pyval) :
  (_validate_and_build_matrix float FEATURE_ORDER instances
   = Raise (ValueError
              (Literal "The 'instances' field must be a non-empty list."))
   <-> (forall row rest, instances <> PList (row :: rest))) /\
  (forall row rest e,
      instances = PList (row :: rest) ->
      _validate_and_build_matrix float FEATURE_ORDER instances = Raise e ->
      exists msg i,
        e = ValueError msg /\ text_position msg = Some i /\
        i < length (row :: rest) /\
        msg <> Literal "The 'instances' field must be a non-empty list.").
Proof.
  assert (Hlist : forall row rest e,
    _validate_and_build_matrix float FEATURE_ORDER (PList (row :: rest))
    = Raise e ->
    exists msg i,
      e = ValueError msg /\ text_position msg = Some i /\
      i < length (row :: rest)).
  { intros row rest e Hres. unfold _validate_and_build_matrix in Hres.
    apply build_rows_Raise_position in Hres as (msg & i & -> & Hpos & Hi).
    exists msg, i. auto. }
  split; [split|].
  - intros Hres row rest ->.
    apply Hlist in Hres as (msg & i & [= <-] & Hpos & _). discriminate.
  - intros Hshape. destruct instances as [| | | | |rows|]; try reflexivity.
    destruct rows as [|row rest]; [reflexivity|].
    now destruct (Hshape row rest).
  - intros row rest e -> Hres.
    apply Hlist in Hres as (msg & i & -> & Hpos & Hi).
    exists msg, i. repeat split; auto. intros ->. discriminate.
Qed.

(** X3. A record that is not a JSON object, met before any other fault, is
    reported as such with its position. *)
Theorem non_object_reported (pre post : list pyval) (row : pyval) :
  (forall r, row <> PDict r) ->
  Forall (well_formed float FEATURE_ORDER) pre ->
  _validate_and_build_matrix float FEATURE_ORDER (PList (pre ++ row :: post))
  = Raise (ValueError (NotObjectText (length pre))).
Proof.
  intros Hrow Hpre. rewrite validate_nonempty by (now destruct pre).
  apply build_rows_first_Raise; [exact Hpre|].
  destruct row as [| | | | | |r]; try reflexivity. now destruct (Hrow r).
Qed.

(** X4. Whatever validation raises on a list is a [ValueError]; on a
    non-empty list its text names a position inside the list, the record
    there is not well formed and every record before it is. *)
Theorem validation_error_located (rows : list pyval) (e : PyExc) :
  _validate_and_build_matrix float FEATURE_ORDER (PList rows) = Raise e ->
  exists msg,
    e = ValueError msg /\
    (rows = [] \/
     exists i row,
       text_position msg = Some i /\ rows !! i = Some row /\
       ~ well_formed float FEATURE_ORDER row /\
       forall j row', j < i -> rows !! j = Some row' ->
                      well_formed float FEATURE_ORDER row').
Proof.
  intros Hres. destruct rows as [|r0 rest].
  { injection Hres as <-. eexists. split; [reflexivity|now left]. }
  set (rows := r0 :: rest) in *.
  destruct (first_offender float FEATURE_ORDER rows)
    as [Hall|(pre & row & post & Heq & Hpre & Hbad)].
  - exfalso.
    destruct (well_formed_all_row_values float FEATURE_ORDER rows Hall)
      as [X HX].
    rewrite validate_nonempty in Hres by discriminate.
    rewrite (build_rows_Return float FEATURE_ORDER 0 rows [] X HX) in Hres.
    discriminate.
  - destruct (not_well_formed_Raise float FEATURE_ORDER (0 + length pre) row Hbad)
      as (msg & Hb & Hpos).
    rewrite validate_nonempty in Hres by discriminate.
    rewrite Heq in Hres.
    rewrite (build_rows_first_Raise float FEATURE_ORDER 0 pre row post []
               (ValueError msg) Hpre Hb) in Hres.
    injection Hres as <-. exists msg. split; [reflexivity|]. right.
    exists (length pre), row. split; [exact Hpos|]. split.
    + rewrite Heq. now apply list_lookup_middle.
    + split; [exact Hbad|]. intros j row' Hj Hlook.
      rewrite Heq, lookup_app_l in Hlook by exact Hj.
      rewrite Forall_forall in Hpre. apply Hpre.
      apply list_elem_of_lookup. eauto.
Qed.

(** X5. The matrix of two batches put end to end is the matrix of the
    first followed by that of the second. *)
Theorem validation_of_concatenation (a b : list pyval) (Xa Xb : matrix) :
  _validate_and_build_matrix float FEATURE_ORDER (PList a) = Return Xa ->
  _validate_and_build_matrix float FEATURE_ORDER (PList b) = Return Xb ->
  _validate_and_build_matrix float FEATURE_ORDER (PList (a ++ b))
  = Return (Xa ++ Xb).
Proof.
  intros Ha Hb.
  apply validate_Return_inv in Ha as (a' & [= <-] & Hna & HXa).
  apply validate_Return_inv in Hb as (b' & [= <-] & Hnb & HXb).
  rewrite validate_nonempty by (now destruct a).
  rewrite (build_rows_prefix float FEATURE_ORDER 0 a b [] Xa HXa). simpl.
  apply (build_rows_Return float FEATURE_ORDER _ b Xa Xb HXb).
Qed.

End MoreValidationFacts.

(** ** The status endpoint and validation *)

(** In a record built from distinct names, each name is bound to the value
    at its place. *)
Lemma dict_get_zip (names : list string) (vals : list pyval) j name v :
  NoDup names -> names !! j = Some name -> vals !! j = Some v ->
  dict_get (zip names vals) name = Some v.
Proof.
  intros Hnd. revert vals j.
  induction Hnd as [|n ns Hn Hnd IH]; intros vals j Hname Hv.
  - discriminate.
  - destruct vals as [|w ws]; [discriminate|].
    destruct j as [|j]; simpl in *.
    + injection Hname as ->. injection Hv as ->. now rewrite String.eqb_refl.
    + destruct (String.eqb_spec n name) as [->|_].
      * exfalso. apply Hn. apply list_elem_of_lookup. eauto.
      * now apply (IH ws j).
Qed.

(** X6. A client that reads the feature names from the answer of [GET /]
    and posts one record binding each name to the number at its place in a
    row gets that row as the matrix, provided the schema has no repeated
    name. *)
Theorem advertised_features_accepted (float : pyval -> option float64)
        (FEATURE_ORDER : list string) (xs : list float64) :
  (forall x, float (PFloat x) = Some x) ->
  NoDup FEATURE_ORDER ->
  length xs = length FEATURE_ORDER ->
  exists body v names,
    index FEATURE_ORDER = (JsonBody body, 200) /\
    dict_get body "expected_features" = Some v /\
    feature_names_of v = Some names /\
    _validate_and_build_matrix float FEATURE_ORDER
      (PList [record_of names xs]) = Return [xs].
Proof.
  intros Hfloat Hnd Hlen.
  eexists. exists (PList (PStr <$> FEATURE_ORDER)), FEATURE_ORDER.
  split; [reflexivity|]. split; [reflexivity|].
  split; [apply feature_names_of_strs|].
  apply validate_Return; [discriminate|]. constructor; [|constructor].
  eexists. split; [reflexivity|].
  apply Forall2_same_length_lookup. split; [now symmetry|].
  intros j f x Hf Hx. exists (PFloat x). split; [|apply Hfloat].
  apply (dict_get_zip _ _ j); [exact Hnd|exact Hf|].
  now rewrite list_lookup_fmap, Hx.
Qed.

(** ** The prediction endpoint *)

(** A class id inside the range is looked up at its residue modulo the
    size of the label set. *)
Lemma list_getitem_in_range CLASS_NAMES p :
  ~ out_of_range CLASS_NAMES p ->
  exists c,
    list_getitem CLASS_NAMES p = Return c /\
    CLASS_NAMES !! Z.to_nat (p mod Z.of_nat (length CLASS_NAMES)) = Some c.
Proof.
  unfold out_of_range, list_getitem. intros Hin.
  set (n := Z.of_nat (length CLASS_NAMES)) in *.
  assert (Hp : (- n <= p < n)%Z) by lia.
  destruct (p <? 0)%Z eqn:Hneg.
  - apply Z.ltb_lt in Hneg.
    assert (Hmod : (p mod n = p + n)%Z).
    { symmetry. apply (Z.mod_unique p n (-1)); lia. }
    replace ((p + n <? 0) || (n <=? p + n))%Z with false
      by (symmetry; apply orb_false_iff; split;
          [apply Z.ltb_ge|apply Z.leb_gt]; lia).
    rewrite Hmod.
    destruct (CLASS_NAMES !! Z.to_nat (p + n)) as [c|] eqn:Hc; [eauto|].
    apply lookup_ge_None in Hc. lia.
  - apply Z.ltb_ge in Hneg.
    replace ((p <? 0) || (n <=? p))%Z with false
      by (symmetry; apply orb_false_iff; split;
          [apply Z.ltb_ge|apply Z.leb_gt]; lia).
    rewrite Z.mod_small by lia.
    destruct (CLASS_NAMES !! Z.to_nat p) as [c|] eqn:Hc; [eauto|].
    apply lookup_ge_None in Hc. lia.
Qed.

Lemma comprehension_Raise_inv {A B : Type} (f : A -> Result B) l e :
  comprehension f l = Raise e -> exists i, i ∈ l /\ f i = Raise e.
Proof.
  induction l as [|j l IH]; simpl; [discriminate|].
  destruct (f j) as [y|e'] eqn:Hfj; simpl.
  - destruct (comprehension f l) as [ys|e'']; simpl; [discriminate|].
    intros [= <-]. destruct IH as (i & Hi & Hfi); [reflexivity|].
    exists i. split; [now right|exact Hfi].
  - intros [= <-]. exists j. split; [left|exact Hfj].
Qed.

Lemma comprehension_in_range CLASS_NAMES preds :
  (forall p, p ∈ preds -> ~ out_of_range CLASS_NAMES p) ->
  exists classes_str,
    comprehension (list_getitem CLASS_NAMES) preds = Return classes_str /\
    Forall2 (fun p c =>
               CLASS_NAMES !! Z.to_nat (p mod Z.of_nat (length CLASS_NAMES))
               = Some c) preds classes_str.
Proof.
  induction preds as [|p preds IH]; intros Hall.
  - exists []. split; [reflexivity|constructor].
  - destruct (list_getitem_in_range CLASS_NAMES p) as (c & Hc & Hmod);
      [apply Hall; left|].
    destruct IH as (cs & Hcs & HF); [intros q Hq; apply Hall; now right|].
    exists (c :: cs). simpl. rewrite Hc. simpl. rewrite Hcs. simpl.
    split; [reflexivity|]. now constructor.
Qed.

Section MorePredictFacts.

Variable float : pyval -> option float64.
Variable FEATURE_ORDER : list string.
Variable CLASS_NAMES : list string.
Variable MODEL : Pipeline.

(** The handler on a JSON object that holds the key, once validation has
    returned. *)
Lemma predict_validated d instances X :
  dict_get d "instances" = Some instances ->
  _validate_and_build_matrix float FEATURE_ORDER instances = Return X ->
  predict_try float FEATURE_ORDER CLASS_NAMES MODEL (Return (PDict d))
  = predict_matrix CLASS_NAMES MODEL X.
Proof.
  intros Hd Hval. unfold predict_try. simpl.
  unfold dict_contains, dict_getitem. rewrite Hd. simpl. now rewrite Hval.
Qed.

(** X7. A batch that fails validation is answered with status 400 and the
    text of the validation error, whatever the pipeline is. *)
Theorem validation_error_gets_400 (d : dict) (instances : pyval) (e : PyExc) :
  dict_get d "instances" = Some instances ->
  _validate_and_build_matrix float FEATURE_ORDER instances = Raise e ->
  predict float FEATURE_ORDER CLASS_NAMES MODEL (Return (PDict d))
  = (ErrorBody (StrOf e), 400).
Proof.
  intros Hd Hval. unfold predict, predict_try. simpl.
  unfold dict_contains, dict_getitem. rewrite Hd. simpl. rewrite Hval. simpl.
  apply validate_Raise in Hval as [msg ->]. reflexivity.
Qed.

(** X8. A body that does not hold the key: a JSON object without it, and a
    list none of whose elements is the string "instances", are answered
    with status 400 and the text about the key; [null], a boolean or a
    number, and a list that has the string among its elements, make the
    handler raise [TypeError] and are answered with status 500. *)
Theorem payload_without_instances :
  (forall d, dict_get d "instances" = None ->
     predict float FEATURE_ORDER CLASS_NAMES MODEL (Return (PDict d))
     = (ErrorBody (ErrLiteral "JSON body must include the 'instances' key."),
        400)) /\
  (forall l, PStr "instances" ∉ l ->
     predict float FEATURE_ORDER CLASS_NAMES MODEL (Return (PList l))
     = (ErrorBody (ErrLiteral "JSON body must include the 'instances' key."),
        400)) /\
  (forall l, PStr "instances" ∈ l ->
     predict float FEATURE_ORDER CLASS_NAMES MODEL (Return (PList l))
     = (ErrorBody (InternalErrorOf TypeError), 500)) /\
  (forall payload,
     payload = PNone \/ (exists b, payload = PBool b) \/
     (exists z, payload = PInt z) \/ (exists x, payload = PFloat x) ->
     predict float FEATURE_ORDER CLASS_NAMES MODEL (Return payload)
     = (ErrorBody (InternalErrorOf TypeError), 500)).
Proof.
  assert (Hmem : forall l,
    existsb (fun x => match x with
                      | PStr s => String.eqb s "instances"
                      | _ => false
                      end) l = true <-> PStr "instances" ∈ l).
  { intros l. rewrite existsb_exists. split.
    - intros (x & Hx & Heq). destruct x; try discriminate.
      apply String.eqb_eq in Heq as ->. now apply list_elem_of_In.
    - intros Hin. exists (PStr "instances").
      split; [now apply list_elem_of_In|reflexivity]. }
  split; [|split; [|split]].
  - intros d Hd. unfold predict, predict_try. simpl.
    unfold dict_contains. now rewrite Hd.
  - intros l Hl. unfold predict, predict_try. simpl.
    destruct (existsb _ l) eqn:Hex; [|reflexivity].
    apply Hmem in Hex. contradiction.
  - intros l Hl. unfold predict, predict_try. simpl.
    apply Hmem in Hl. now rewrite Hl.
  - intros payload [->|[[b ->]|[[z ->]|[x ->]]]]; reflexivity.
Qed.

(** X9. The handler answers with one of three shapes only: status 200 with
    the response object, status 400 with an error text that is not the
    internal one, or status 500 with the internal-error text of an
    exception that is not a [ValueError]. *)
Theorem response_shapes (get_json : Result pyval) :
  (exists resp,
      predict float FEATURE_ORDER CLASS_NAMES MODEL get_json
      = (JsonBody resp, 200)) \/
  predict float FEATURE_ORDER CLASS_NAMES MODEL get_json
  = (ErrorBody (ErrLiteral "JSON body must include the 'instances' key."),
     400) \/
  (exists e, isinstance_ValueError e = true /\
      predict float FEATURE_ORDER CLASS_NAMES MODEL get_json
      = (ErrorBody (StrOf e), 400)) \/
  (exists e, isinstance_ValueError e = false /\
      predict float FEATURE_ORDER CLASS_NAMES MODEL get_json
      = (ErrorBody (InternalErrorOf e), 500)).
Proof.
  unfold predict.
  destruct (predict_try float FEATURE_ORDER CLASS_NAMES MODEL get_json)
    as [response|e] eqn:Htry.
  - apply predict_try_Return in Htry as [->|(d & v & X & _ & _ & _ & Hm)].
    + right. now left.
    + apply predict_matrix_Return in Hm as (? & ? & ? & _ & _ & _ & ->).
      left. eauto.
  - destruct (isinstance_ValueError e) eqn:Hcls.
    + right. right. left. eauto.
    + right. right. right. eauto.
Qed.

(** X10. A request is answered with status 200 whenever its batch is a
    non-empty list of well-formed records, the pipeline returns on their
    matrix and every class id lies between minus the size of the label set
    and the size less one; each class is then the label at the residue of
    its id modulo that size, so a negative id counts from the end. *)
Theorem predict_succeeds (d : dict) (rows : list pyval) (X : matrix)
        (preds : list Z) :
  dict_get d "instances" = Some (PList rows) ->
  rows <> [] ->
  Forall2 (row_values float FEATURE_ORDER) rows X ->
  pipeline_predict MODEL X = Return preds ->
  match pipeline_predict_proba MODEL with
  | Some predict_proba => exists P, predict_proba X = Return P
  | None => True
  end ->
  (forall p, p ∈ preds -> ~ out_of_range CLASS_NAMES p) ->
  exists classes_str probas,
    predict float FEATURE_ORDER CLASS_NAMES MODEL (Return (PDict d))
    = (JsonBody [("predictions", PList (PInt <$> preds));
                 ("classes", PList (PStr <$> classes_str));
                 ("probas", probas);
                 ("class_names", PList (PStr <$> CLASS_NAMES))],
       200) /\
    Forall2 (fun p c =>
               CLASS_NAMES !! Z.to_nat (p mod Z.of_nat (length CLASS_NAMES))
               = Some c) preds classes_str.
Proof.
  intros Hd Hne HX Hpred Hprob Hrange.
  assert (Hval : _validate_and_build_matrix float FEATURE_ORDER (PList rows)
                 = Return X)
    by (now apply validate_Return).
  destruct (comprehension_in_range CLASS_NAMES preds Hrange)
    as (classes_str & Hcls & HF).
  unfold predict. rewrite (predict_validated d _ X Hd Hval).
  unfold predict_matrix. rewrite Hpred. simpl.
  destruct (pipeline_predict_proba MODEL) as [predict_proba|].
  - destruct Hprob as [P ->]. simpl. rewrite Hcls. simpl. eauto.
  - simpl. rewrite Hcls. simpl. eauto.
Qed.

(** X11. Once validation and the pipeline have returned, the answer is the
    internal error of an [IndexError], with status 500, exactly when some
    class id is out of range, and has status 200 otherwise. *)
Theorem class_id_bounds (d : dict) (instances : pyval) (X : matrix)
        (preds : list Z) :
  dict_get d "instances" = Some instances ->
  _validate_and_build_matrix float FEATURE_ORDER instances = Return X ->
  pipeline_predict MODEL X = Return preds ->
  match pipeline_predict_proba MODEL with
  | Some predict_proba => exists P, predict_proba X = Return P
  | None => True
  end ->
  (predict float FEATURE_ORDER CLASS_NAMES MODEL (Return (PDict d))
   = (ErrorBody (InternalErrorOf IndexError), 500)
   <-> exists p, p ∈ preds /\ out_of_range CLASS_NAMES p) /\
  ((exists body,
       predict float FEATURE_ORDER CLASS_NAMES MODEL (Return (PDict d))
       = (body, 200))
   <-> forall p, p ∈ preds -> ~ out_of_range CLASS_NAMES p).
Proof.
  intros Hd Hval Hpred Hprob.
  assert (Hrun : predict float FEATURE_ORDER CLASS_NAMES MODEL (Return (PDict d))
    = match comprehension (list_getitem CLASS_NAMES) preds with
      | Return classes_str =>
          (JsonBody [("predictions", PList (PInt <$> preds));
                     ("classes", PList (PStr <$> classes_str));
                     ("probas",
                      match pipeline_predict_proba MODEL with
                      | Some predict_proba =>
                          match predict_proba X with
                          | Return P => probas_value P
                          | Raise _ => PNone
                          end
                      | None => PNone
                      end);
                     ("class_names", PList (PStr <$> CLASS_NAMES))], 200)
      | Raise e => (ErrorBody (InternalErrorOf IndexError), 500)
      end).
  { unfold predict. rewrite (predict_validated d _ X Hd Hval).
    unfold predict_matrix. rewrite Hpred. simpl.
    destruct (comprehension (list_getitem CLASS_NAMES) preds)
      as [classes_str|e] eqn:Hcls.
    - destruct (pipeline_predict_proba MODEL) as [predict_proba|];
        [destruct Hprob as [P ->]|]; reflexivity.
    - apply comprehension_Raise_inv in Hcls as Hi.
      destruct Hi as (i & _ & Hi). apply list_getitem_Raise in Hi as ->.
      destruct (pipeline_predict_proba MODEL) as [predict_proba|];
        [destruct Hprob as [P ->]|]; reflexivity. }
  rewrite Hrun.
  destruct (comprehension (list_getitem CLASS_NAMES) preds)
    as [classes_str|e] eqn:Hcls.
  - assert (Hin : forall p, p ∈ preds -> ~ out_of_range CLASS_NAMES p).
    { intros p Hp Hout. apply comprehension_Return in Hcls.
      apply list_elem_of_lookup in Hp as [i Hi].
      destruct (Forall2_lookup_l _ _ _ _ _ Hcls Hi) as (c & _ & Hc).
      rewrite (list_getitem_out_of_range _ _ Hout) in Hc. discriminate. }
    split; split.
    + discriminate.
    + intros (p & Hp & Hout). now destruct (Hin p Hp).
    + intros _. exact Hin.
    + intros _. eauto.
  - apply comprehension_Raise_inv in Hcls as (p & Hp & Hraise).
    assert (Hout : out_of_range CLASS_NAMES p).
    { unfold out_of_range.
      destruct (Z_lt_dec p (- Z.of_nat (length CLASS_NAMES))); [now left|].
      destruct (Z_le_dec (Z.of_nat (length CLASS_NAMES)) p); [now right|].
      destruct (list_getitem_in_range CLASS_NAMES p) as (c & Hc & _).
      - unfold out_of_range. lia.
      - congruence. }
    split; split.
    + intros _. eauto.
    + reflexivity.
    + intros [body [=]].
    + intros Hall. now destruct (Hall p Hp).
Qed.

(** X12. When the pipeline has [predict_proba], the probabilities of a
    response with status 200 are what [predict_proba] returned on the very
    matrix the predictions were computed on, one list per row it
    returned. *)
Theorem probas_follow_predict_proba (get_json : Result pyval) (body : Body)
        (predict_proba : matrix -> Result (list (list float64))) :
  pipeline_predict_proba MODEL = Some predict_proba ->
  predict float FEATURE_ORDER CLASS_NAMES MODEL get_json = (body, 200) ->
  exists resp X preds P,
    body = JsonBody resp /\
    pipeline_predict MODEL X = Return preds /\
    predict_proba X = Return P /\
    dict_get resp "predictions" = Some (PList (PInt <$> preds)) /\
    dict_get resp "probas"
    = Some (PList ((fun row => PList (PFloat <$> row)) <$> P)).
Proof.
  intros Hsome Hp. apply predict_200_inv in Hp
    as (d & instances & X & preds & probas & classes_str
        & _ & _ & _ & Hpred & Hprob & _ & ->).
  rewrite Hsome in Hprob. destruct Hprob as (P & HP & ->).
  eexists. exists X, preds, P. split; [reflexivity|]. auto.
Qed.

End MorePredictFacts.

(** ** Coercion and the pipeline *)

(** C10. Validation accepts exactly what [float] accepts: a record holding
    every schema feature is accepted when [float] returns on each of its
    schema values, with the returned numbers as its row, and is rejected as
    non-numeric when [float] raises on one of them.  With Python's [float],
    the string "13.2", the booleans and the strings "nan" and "inf" pass,
    the last two as non-finite entries of the matrix on which the handler
    calls the pipeline: what [predict] of the pipeline raises on that
    matrix is what the [try] block raises, and what it returns there are
    the predictions of the response. *)
Theorem coercion_follows_float (float : pyval -> option float64)
        (FEATURE_ORDER : list string) (idx : nat) (r : dict) :
  (forall f, f ∈ FEATURE_ORDER -> dict_contains r f = true) ->
  ((exists xs, build_row float FEATURE_ORDER idx (PDict r) = Return xs /\
               Forall2 (coerces_to float r) FEATURE_ORDER xs) <->
   (forall f v, f ∈ FEATURE_ORDER -> dict_get r f = Some v ->
                exists x, float v = Some x)) /\
  ((exists f, build_row float FEATURE_ORDER idx (PDict r)
              = Raise (ValueError (NotNumericText f idx))) <->
   (exists f v, f ∈ FEATURE_ORDER /\ dict_get r f = Some v /\ float v = None)) /\
  (forall name v x,
      (v, x) ∈ [(PStr "13.2", f13_2); (PBool true, f1_0); (PBool false, f0_0);
                (PStr "nan", S754_nan); (PStr "inf", S754_infinity false)] ->
      py_float v = Some x /\
      _validate_and_build_matrix py_float [name] (PList [PDict [(name, v)]])
      = Return [[x]] /\
      forall CLASS_NAMES MODEL,
        predict_try py_float [name] CLASS_NAMES MODEL
                    (request_of [PDict [(name, v)]])
        = predict_matrix CLASS_NAMES MODEL [[x]] /\
        (forall e,
            pipeline_predict MODEL [[x]] = Raise e ->
            predict_try py_float [name] CLASS_NAMES MODEL
                        (request_of [PDict [(name, v)]]) = Raise e) /\
        (forall preds,
            pipeline_predict MODEL [[x]] = Return preds ->
            match pipeline_predict_proba MODEL with
            | Some predict_proba => exists P, predict_proba [[x]] = Return P
            | None => True
            end ->
            (forall p, p ∈ preds -> ~ out_of_range CLASS_NAMES p) ->
            exists classes_str probas,
              predict py_float [name] CLASS_NAMES MODEL
                      (request_of [PDict [(name, v)]])
              = (JsonBody [("predictions", PList (PInt <$> preds));
                           ("classes", PList (PStr <$> classes_str));
                           ("probas", probas);
                           ("class_names", PList (PStr <$> CLASS_NAMES))],
                 200))) /\
  is_finite S754_nan = false /\ is_finite (S754_infinity false) = false.
Proof.
  intros Hall. split; [|split; [|split; [|split; reflexivity]]].
  - split.
    + intros (xs & _ & HF) f v Hf Hv.
      destruct (coerces_to_present float _ _ _ _ HF Hf) as (x & v' & Hv' & Hx).
      exists x. congruence.
    + intros Hacc.
      destruct (coerces_to_all float r FEATURE_ORDER) as [xs HF].
      { intros f Hf. destruct (proj1 (dict_contains_true r f) (Hall f Hf)) as [v Hv].
        destruct (Hacc f v Hf Hv) as [x Hx].
        exists x, v. auto. }
      exists xs. split; [|exact HF]. apply build_row_Return. exists r. auto.
  - split.
    + intros [f Hb]. apply build_row_complete_Raise in Hb
        as (fs1 & f0 & fs2 & v0 & Heq & _ & Hv0 & Hrej & _); [|exact Hall].
      exists f0, v0. repeat split; auto.
      rewrite Heq. apply elem_of_app. right. left.
    + intros (f & v & Hf & Hv & Hrej).
      destruct (build_row float FEATURE_ORDER idx (PDict r)) as [xs|e] eqn:Hb.
      * apply build_row_Return in Hb as (r' & [= <-] & HF).
        destruct (coerces_to_present float _ _ _ _ HF Hf) as (x & v' & Hv' & Hx).
        congruence.
      * apply build_row_complete_Raise in Hb
          as (fs1 & f0 & fs2 & v0 & _ & _ & _ & _ & ->); [|exact Hall].
        exists f0. reflexivity.
  - intros name v x Hin.
    assert (Hfl : py_float v = Some x).
    { repeat (apply elem_of_cons in Hin as [[= -> ->]|Hin]; [reflexivity|]).
      inversion Hin. }
    assert (Hval : _validate_and_build_matrix py_float [name]
                     (PList [PDict [(name, v)]]) = Return [[x]]).
    { simpl. unfold dict_contains, dict_getitem. simpl.
      rewrite String.eqb_refl. simpl. now rewrite Hfl. }
    split; [exact Hfl|]. split; [exact Hval|].
    intros CLASS_NAMES MODEL.
    assert (Htry : predict_try py_float [name] CLASS_NAMES MODEL
                     (request_of [PDict [(name, v)]])
                   = predict_matrix CLASS_NAMES MODEL [[x]])
      by (apply (predict_validated py_float [name] CLASS_NAMES MODEL
                   [("instances", PList [PDict [(name, v)]])] _ [[x]]
                   eq_refl Hval)).
    split; [exact Htry|]. split.
    + intros e He. rewrite Htry. unfold predict_matrix. now rewrite He.
    + intros preds Hpred Hprob Hrange.
      destruct (comprehension_in_range CLASS_NAMES preds Hrange)
        as (classes_str & Hcls & _).
      unfold predict. unfold request_of in Htry. unfold request_of.
      rewrite Htry. unfold predict_matrix. rewrite Hpred. simpl.
      destruct (pipeline_predict_proba MODEL) as [predict_proba|].
      * destruct Hprob as [P ->]. simpl. rewrite Hcls. simpl. eauto.
      * simpl. rewrite Hcls. simpl. eauto.
Qed.

(** C10 at the sample data: the record is accepted with a NaN in its row,
    and the refusal of the pipeline on that matrix comes out of the [try]
    block. *)
Lemma coercion_follows_float_witness :
  (forall f, f ∈ sample_schema ->
     dict_contains [("malic_acid", PBool true); ("alcohol", PStr "nan")] f
     = true) /\
  build_row py_float sample_schema 0
    (PDict [("malic_acid", PBool true); ("alcohol", PStr "nan")])
  = Return [S754_nan; f1_0] /\
  ((exists xs, build_row py_float sample_schema 0
       (PDict [("malic_acid", PBool true); ("alcohol", PStr "nan")])
       = Return xs /\
       Forall2 (coerces_to py_float
                  [("malic_acid", PBool true); ("alcohol", PStr "nan")])
               sample_schema xs) <->
   (forall f v, f ∈ sample_schema ->
      dict_get [("malic_acid", PBool true); ("alcohol", PStr "nan")] f = Some v ->
      exists x, py_float v = Some x)) /\
  pipeline_predict sample_model_finite_only [[S754_nan]]
  = Raise (Raised true "Input X contains NaN.") /\
  predict_try py_float ["alcohol"] sample_class_names sample_model_finite_only
              (request_of [PDict [("alcohol", PStr "nan")]])
  = Raise (Raised true "Input X contains NaN.").
Proof.
  assert (H1 : forall f, f ∈ sample_schema ->
     dict_contains [("malic_acid", PBool true); ("alcohol", PStr "nan")] f
     = true) by (intros f Hf; by_cases_on Hf).
  pose proof (coercion_follows_float py_float sample_schema 0 _ H1)
    as (Hacc & _ & Hsamples & _).
  split; [exact H1|]. split; [reflexivity|]. split; [exact Hacc|].
  split; [reflexivity|].
  assert (Hin : (PStr "nan", S754_nan)
                ∈ [(PStr "13.2", f13_2); (PBool true, f1_0);
                   (PBool false, f0_0); (PStr "nan", S754_nan);
                   (PStr "inf", S754_infinity false)]) by in_list.
  destruct (Hsamples "alcohol" _ _ Hin) as (_ & _ & Hpipe).
  destruct (Hpipe sample_class_names sample_model_finite_only)
    as (_ & Hraise & _).
  apply Hraise. reflexivity.
Defined.

(** ** Start-up *)

Lemma node_at_child fs (dir : path) name :
  node_at fs (dir ++ [name]) = fs !! (dir ++ [name]).
Proof. now destruct dir. Qed.

Lemma resolve_MODEL_PATH cwd :
  resolve cwd MODEL_PATH = cwd ++ ["model.joblib"].
Proof. reflexivity. Qed.

Lemma resolve_FEATURES_PATH cwd :
  resolve cwd FEATURES_PATH = cwd ++ ["features.json"].
Proof. reflexivity. Qed.

(** Start-up returns what the two artifacts hold. *)
Lemma startup_Return cwd fs model d feature_order :
  fs !! (cwd ++ ["model.joblib"]) = Some (File (Joblib model)) ->
  fs !! (cwd ++ ["features.json"]) = Some (File (JsonText (PDict d))) ->
  dict_get d "feature_order" = Some feature_order ->
  startup cwd fs = Return (model, feature_order).
Proof.
  intros Hm Hf Hd. unfold startup, path_exists, joblib_load, json_load.
  rewrite resolve_MODEL_PATH, resolve_FEATURES_PATH, !node_at_child, Hm, Hf.
  simpl. unfold dict_getitem. now rewrite Hd.
Qed.

(** X13. Start-up raises its [FileNotFoundError] exactly when one of the
    two artifact paths does not exist in the working directory. *)
Theorem startup_fails_fast (cwd : path) (fs : gmap path node) :
  startup cwd fs
  = Raise (FileNotFoundError (Literal
      "Artifacts not found (model.joblib / features.json). Run first: python train_model.py"))
  <-> fs !! (cwd ++ ["model.joblib"]) = None \/
      fs !! (cwd ++ ["features.json"]) = None.
Proof.
  unfold startup, path_exists, joblib_load, json_load.
  rewrite resolve_MODEL_PATH, resolve_FEATURES_PATH, !node_at_child.
  destruct (fs !! (cwd ++ ["model.joblib"])) as [[|[m|v]]|] eqn:Hm;
    destruct (fs !! (cwd ++ ["features.json"])) as [[|[m'|v']]|] eqn:Hf;
    simpl; split; try discriminate; try (intros [?|?]; discriminate); auto.
  destruct v' as [| | | | | |d]; simpl; try discriminate.
  unfold dict_getitem. destruct (dict_get d "feature_order"); discriminate.
Qed.

(** X14. Start-up returns a pipeline and a feature order exactly when the
    model file holds that pipeline and the features file holds a JSON
    object binding ["feature_order"] to that value. *)
Theorem startup_returns_iff (cwd : path) (fs : gmap path node)
        (model : Pipeline) (feature_order : pyval) :
  startup cwd fs = Return (model, feature_order) <->
  fs !! (cwd ++ ["model.joblib"]) = Some (File (Joblib model)) /\
  exists d,
    fs !! (cwd ++ ["features.json"]) = Some (File (JsonText (PDict d))) /\
    dict_get d "feature_order" = Some feature_order.
Proof.
  split.
  - unfold startup, path_exists, joblib_load, json_load.
    rewrite resolve_MODEL_PATH, resolve_FEATURES_PATH, !node_at_child.
    destruct (fs !! (cwd ++ ["model.joblib"])) as [[|[m|v]]|];
      destruct (fs !! (cwd ++ ["features.json"])) as [[|[m'|v']]|];
      simpl; try discriminate.
    destruct v' as [| | | | | |d]; simpl; try discriminate.
    unfold dict_getitem.
    destruct (dict_get d "feature_order") as [fo|] eqn:Hd; simpl;
      [|discriminate].
    intros [= <- <-]. split; [reflexivity|]. exists d. auto.
  - intros (Hm & d & Hf & Hd). exact (startup_Return _ _ _ _ _ Hm Hf Hd).
Qed.

(** ** Saving the artifacts *)

(** [mkdir_from] changes the file system only by putting directories at
    absent places of its walk, whether it returns or raises. *)
Lemma mkdir_from_monotone target below : forall above fs q,
  (mkdir_from target above below fs).2 !! q = fs !! q \/
  (fs !! q = None /\
   (mkdir_from target above below fs).2 !! q = Some Directory /\
   q `prefix_of` above ++ below /\ length above < length q).
Proof.
  induction below as [|name below IH]; intros above fs q; simpl.
  - now left.
  - set (p := above ++ [name]).
    assert (Hpath : p ++ below = above ++ name :: below)
      by (unfold p; now rewrite <- app_assoc).
    assert (Hlen : length p = S (length above))
      by (unfold p; rewrite length_app; simpl; lia).
    destruct (fs !! p) as [[|c]|] eqn:Hnode.
    + destruct (IH p fs q) as [Heq|(Hnone & Hdir & Hpre & Hq)].
      * now left.
      * right. rewrite <- Hpath. repeat split; auto. lia.
    + now left.
    + destruct (IH p (<[p := Directory]> fs) q) as [Heq|(Hnone & Hdir & Hpre & Hq)].
      * destruct (decide (p = q)) as [<-|Hne].
        -- right. rewrite Heq, lookup_insert_eq. repeat split; auto.
           ++ exists below. now rewrite <- Hpath.
           ++ lia.
        -- left. now rewrite Heq, lookup_insert_ne.
      * destruct (decide (p = q)) as [<-|Hne].
        -- rewrite lookup_insert_eq in Hnone. discriminate.
        -- rewrite lookup_insert_ne in Hnone by exact Hne.
           right. rewrite <- Hpath. repeat split; auto. lia.
Qed.

(** A regular file met on the walk makes [mkdir_from] raise: [EEXIST] when
    it sits at the target itself, [ENOTDIR] when it sits above it. *)
Lemma mkdir_from_blocked target name below c mid : forall start fs,
  (forall q c', q `prefix_of` start ++ mid -> length start < length q ->
                fs !! q <> Some (File c')) ->
  fs !! (start ++ mid ++ [name]) = Some (File c) ->
  (mkdir_from target start (mid ++ name :: below) fs).1
  = Raise (OSError (match below with [] => EEXIST | _ => ENOTDIR end) target).
Proof.
  induction mid as [|m mid IH]; intros start fs Hclear Hfile; simpl in *.
  - now rewrite Hfile.
  - set (p := start ++ [m]).
    assert (Hpath : forall l, p ++ l = start ++ m :: l)
      by (intros l; unfold p; now rewrite <- app_assoc).
    assert (Hlen : length p = S (length start))
      by (unfold p; rewrite length_app; simpl; lia).
    assert (Hp : p `prefix_of` start ++ m :: mid)
      by (exists mid; now rewrite Hpath).
    destruct (fs !! p) as [[|c']|] eqn:Hnode.
    + apply IH.
      * intros q c' Hq Hlq. apply Hclear; [now rewrite <- Hpath|lia].
      * now rewrite Hpath.
    + exfalso. apply (Hclear p c' Hp); [lia|exact Hnode].
    + apply IH.
      * intros q c' Hq Hlq. rewrite lookup_insert_ne.
        -- apply Hclear; [now rewrite <- Hpath|lia].
        -- intros <-. lia.
      * rewrite lookup_insert_ne; [now rewrite Hpath|].
        intros Heq. apply (f_equal length) in Heq.
        rewrite !length_app in Heq. simpl in Heq. lia.
Qed.

Lemma child_not_prefix (dir : path) name q :
  q `prefix_of` dir -> q <> dir ++ [name].
Proof. intros Hq ->. exact (not_prefix_of_child dir name Hq). Qed.

Lemma child_ne (dir : path) name : dir <> dir ++ [name].
Proof.
  intros Heq. apply (f_equal length) in Heq.
  rewrite length_app in Heq. simpl in Heq. lia.
Qed.

(** What a save does where nothing blocks it: the directories are made,
    then the two files are put. *)
Lemma save_artifacts_run cwd model feature_names out_dir fs :
  no_file_on_the_way fs (resolve cwd out_dir) ->
  fs !! (resolve cwd out_dir ++ ["model.joblib"]) <> Some Directory ->
  fs !! (resolve cwd out_dir ++ ["features.json"]) <> Some Directory ->
  exists fs1,
    mkdir (resolve cwd out_dir) fs = (Return tt, fs1) /\
    node_at fs1 (resolve cwd out_dir) = Some Directory /\
    save_artifacts cwd model feature_names out_dir fs
    = (Return tt,
       <[resolve cwd out_dir ++ ["features.json"] :=
           File (JsonText (feature_record feature_names))]>
         (<[resolve cwd out_dir ++ ["model.joblib"] := File (Joblib model)]>
            fs1)).
Proof.
  set (out := resolve cwd out_dir). intros Hclear Hmodel Hfeatures.
  destruct (mkdir_ok out fs Hclear) as (fs1 & Hmk & Hdir & Hoff).
  exists fs1. split; [exact Hmk|]. split; [exact Hdir|].
  assert (Hm1 : fs1 !! (out ++ ["model.joblib"]) <> Some Directory)
    by (rewrite Hoff by apply not_prefix_of_child; exact Hmodel).
  assert (Hf1 : fs1 !! (out ++ ["features.json"]) <> Some Directory)
    by (rewrite Hoff by apply not_prefix_of_child; exact Hfeatures).
  set (fs2 := <[out ++ ["model.joblib"] := File (Joblib model)]> fs1).
  assert (Hne : out ++ ["model.joblib"] <> out ++ ["features.json"])
    by (intros Heq; apply app_inv_head in Heq; discriminate).
  assert (Hdir2 : node_at fs2 out = Some Directory).
  { destruct out as [|n out'] eqn:Hout; [reflexivity|]. unfold fs2. simpl.
    rewrite lookup_insert_ne; [exact Hdir|]. intros Heq. symmetry in Heq.
    exact (child_ne _ _ Heq). }
  assert (Hf2 : fs2 !! (out ++ ["features.json"]) <> Some Directory)
    by (unfold fs2; now rewrite lookup_insert_ne).
  unfold save_artifacts, io_bind. fold out. rewrite Hmk.
  rewrite (write_file_ok out "model.joblib" _ fs1 Hdir Hm1). fold fs2.
  now rewrite (write_file_ok out "features.json" _ fs2 Hdir2 Hf2).
Qed.

(** X15. A regular file at the target path or above it makes the save
    raise an [OSError], [EEXIST] at the target and [ENOTDIR] above, and
    neither artifact is written. *)
Theorem save_blocked_by_file (cwd : path) (model : Pipeline)
        (feature_names : list string) (out_dir : Path) (fs : gmap path node)
        (above : path) (name : string) (below : list string) (c : content) :
  resolve cwd out_dir = above ++ name :: below ->
  no_file_on_the_way fs above ->
  fs !! (above ++ [name]) = Some (File c) ->
  exists fs',
    save_artifacts cwd model feature_names out_dir fs
    = (Raise (OSError (match below with [] => EEXIST | _ => ENOTDIR end)
                      (resolve cwd out_dir)), fs') /\
    fs' !! (resolve cwd out_dir ++ ["model.joblib"])
    = fs !! (resolve cwd out_dir ++ ["model.joblib"]) /\
    fs' !! (resolve cwd out_dir ++ ["features.json"])
    = fs !! (resolve cwd out_dir ++ ["features.json"]).
Proof.
  intros Hout Hclear Hfile. set (out := resolve cwd out_dir) in *.
  assert (Hraise : (mkdir out fs).1
    = Raise (OSError (match below with [] => EEXIST | _ => ENOTDIR end) out)).
  { unfold mkdir. rewrite Hout at 2.
    apply (mkdir_from_blocked out name below c above [] fs).
    - intros q c' Hq _. now apply Hclear.
    - exact Hfile. }
  assert (Hoff : forall x, (mkdir out fs).2 !! (out ++ [x]) = fs !! (out ++ [x])).
  { intros x. unfold mkdir.
    destruct (mkdir_from_monotone out out [] fs (out ++ [x]))
      as [Heq|(_ & _ & Hpre & _)]; [exact Heq|].
    now destruct (not_prefix_of_child out x). }
  exists (mkdir out fs).2. unfold save_artifacts, io_bind. fold out.
  destruct (mkdir out fs) as [[[]|e] fs'] eqn:Hmk; simpl in *.
  - discriminate.
  - injection Hraise as ->. auto.
Qed.

(** X16. A save into a target directory given by a plain path, in a
    working directory that exists, which nothing blocks, changes the file
    system at the two artifact paths and at absent directories of the
    target path only: every other path keeps its node, and every
    directory stays one. *)
Theorem save_touches_nothing_else (cwd : path) (model : Pipeline)
        (feature_names : list string) (out_dir : Path)
        (fs : gmap path node) :
  plain out_dir ->
  node_at fs cwd = Some Directory ->
  no_file_on_the_way fs (resolve cwd out_dir) ->
  fs !! (resolve cwd out_dir ++ ["model.joblib"]) <> Some Directory ->
  fs !! (resolve cwd out_dir ++ ["features.json"]) <> Some Directory ->
  exists fs',
    save_artifacts cwd model feature_names out_dir fs = (Return tt, fs') /\
    (forall q,
        ~ q `prefix_of` resolve cwd out_dir ->
        q <> resolve cwd out_dir ++ ["model.joblib"] ->
        q <> resolve cwd out_dir ++ ["features.json"] ->
        fs' !! q = fs !! q) /\
    (forall q, fs !! q = Some Directory -> fs' !! q = Some Directory).
Proof.
  intros _ _ Hclear Hmodel Hfeatures.
  destruct (save_artifacts_run cwd model feature_names out_dir fs
              Hclear Hmodel Hfeatures) as (fs1 & Hmk & _ & Hrun).
  set (out := resolve cwd out_dir) in *.
  assert (Hmono : forall q : path, fs1 !! q = fs !! q \/
            (fs !! q = None /\ fs1 !! q = Some Directory /\ q `prefix_of` out)).
  { intros q. pose proof (mkdir_from_monotone out out [] fs q) as Hq.
    unfold mkdir in Hmk. rewrite Hmk in Hq. simpl in Hq.
    destruct Hq as [Heq|(Hnone & Hdir & Hpre & _)]; [now left|right; auto]. }
  eexists. split; [exact Hrun|]. split.
  - intros q Hq Hqm Hqf. rewrite !lookup_insert_ne by congruence.
    destruct (Hmono q) as [Heq|(_ & _ & Hpre)]; [exact Heq|contradiction].
  - intros q Hdir.
    assert (Hqm : out ++ ["model.joblib"] <> q) by (intros <-; contradiction).
    assert (Hqf : out ++ ["features.json"] <> q) by (intros <-; contradiction).
    rewrite !lookup_insert_ne by assumption.
    destruct (Hmono q) as [Heq|(Hnone & _)];
      [now rewrite Heq|rewrite Hnone in Hdir; discriminate].
Qed.

(** X17. Saving twice into the same directory, given by a plain path in a
    working directory that exists and blocked by nothing, replaces the
    artifacts: the second save returns as well, and start-up in that
    directory loads the pipeline and the names of the second save. *)
Theorem save_overwrites (cwd : path) (model1 model2 : Pipeline)
        (names1 names2 : list string) (out_dir : Path)
        (fs : gmap path node) :
  plain out_dir ->
  node_at fs cwd = Some Directory ->
  no_file_on_the_way fs (resolve cwd out_dir) ->
  fs !! (resolve cwd out_dir ++ ["model.joblib"]) <> Some Directory ->
  fs !! (resolve cwd out_dir ++ ["features.json"]) <> Some Directory ->
  exists fs1 fs2,
    save_artifacts cwd model1 names1 out_dir fs = (Return tt, fs1) /\
    save_artifacts cwd model2 names2 out_dir fs1 = (Return tt, fs2) /\
    startup (resolve cwd out_dir) fs2
    = Return (model2, PList (PStr <$> names2)).
Proof.
  intros _ _ Hclear Hmodel Hfeatures.
  destruct (save_artifacts_run cwd model1 names1 out_dir fs
              Hclear Hmodel Hfeatures) as (fs0 & Hmk & _ & Hrun1).
  set (out := resolve cwd out_dir) in *.
  set (fs1 := <[out ++ ["features.json"] :=
                  File (JsonText (feature_record names1))]>
                (<[out ++ ["model.joblib"] := File (Joblib model1)]> fs0))
    in *.
  assert (Hne : out ++ ["model.joblib"] <> out ++ ["features.json"])
    by (intros Heq; apply app_inv_head in Heq; discriminate).
  assert (Hclear1 : no_file_on_the_way fs1 out).
  { intros q c Hq. unfold fs1.
    rewrite !lookup_insert_ne by (apply not_eq_sym; now apply child_not_prefix).
    pose proof (mkdir_from_monotone out out [] fs q) as Hmono.
    unfold mkdir in Hmk. rewrite Hmk in Hmono. simpl in Hmono.
    destruct Hmono as [->|(_ & -> & _)]; [now apply Hclear|discriminate]. }
  assert (Hm1 : fs1 !! (out ++ ["model.joblib"]) <> Some Directory).
  { unfold fs1. rewrite lookup_insert_ne by congruence.
    rewrite lookup_insert_eq. discriminate. }
  assert (Hf1 : fs1 !! (out ++ ["features.json"]) <> Some Directory)
    by (unfold fs1; rewrite lookup_insert_eq; discriminate).
  destruct (save_artifacts_run cwd model2 names2 out_dir fs1
              Hclear1 Hm1 Hf1) as (fs0' & _ & _ & Hrun2).
  fold out in Hrun2.
  exists fs1. eexists. split; [exact Hrun1|]. split; [exact Hrun2|].
  apply (startup_Return out _ model2 [("feature_order", PList (PStr <$> names2))]).
  - rewrite lookup_insert_ne by congruence. apply lookup_insert_eq.
  - apply lookup_insert_eq.
  - reflexivity.
Qed.

(** X18. When a directory bears the name of the features file, the save
    raises an [OSError] with [EISDIR] after the pipeline has been written:
    the model file is left behind without its features file. *)
Theorem save_partial_write (cwd : path) (model : Pipeline)
        (feature_names : list string) (out_dir : Path)
        (fs : gmap path node) :
  no_file_on_the_way fs (resolve cwd out_dir) ->
  fs !! (resolve cwd out_dir ++ ["model.joblib"]) <> Some Directory ->
  fs !! (resolve cwd out_dir ++ ["features.json"]) = Some Directory ->
  exists fs',
    save_artifacts cwd model feature_names out_dir fs
    = (Raise (OSError EISDIR (resolve cwd out_dir ++ ["features.json"])), fs') /\
    fs' !! (resolve cwd out_dir ++ ["model.joblib"])
    = Some (File (Joblib model)) /\
    fs' !! (resolve cwd out_dir ++ ["features.json"]) = Some Directory.
Proof.
  set (out := resolve cwd out_dir). intros Hclear Hmodel Hfeatures.
  destruct (mkdir_ok out fs Hclear) as (fs1 & Hmk & Hdir & Hoff).
  assert (Hm1 : fs1 !! (out ++ ["model.joblib"]) <> Some Directory)
    by (rewrite Hoff by apply not_prefix_of_child; exact Hmodel).
  assert (Hf1 : fs1 !! (out ++ ["features.json"]) = Some Directory)
    by (rewrite Hoff by apply not_prefix_of_child; exact Hfeatures).
  assert (Hne : out ++ ["model.joblib"] <> out ++ ["features.json"])
    by (intros Heq; apply app_inv_head in Heq; discriminate).
  eexists. split; [|split].
  - unfold save_artifacts, io_bind. fold out. rewrite Hmk.
    rewrite (write_file_ok out "model.joblib" _ fs1 Hdir Hm1).
    unfold write_file at 1. rewrite node_at_child.
    rewrite lookup_insert_ne by exact Hne. rewrite Hf1. reflexivity.
  - apply lookup_insert_eq.
  - rewrite lookup_insert_ne by exact Hne. exact Hf1.
Qed.

(** X19. The defaults of the trainer and of the service agree: after
    [main] has run in a working directory that nothing blocks, start-up in
    the same working directory loads the pipeline [train_model] made and
    the feature names [load_data] gave, in their order. *)
Theorem main_then_startup (Features Target : Type)
        (load_data : Features * Target * list string)
        (train_model : Features -> Target -> Pipeline)
        (cwd : path) (fs : gmap path node) :
  no_file_on_the_way fs cwd ->
  fs !! (cwd ++ ["model.joblib"]) <> Some Directory ->
  fs !! (cwd ++ ["features.json"]) <> Some Directory ->
  exists fs',
    main Features Target load_data train_model cwd fs = (Return tt, fs') /\
    startup cwd fs'
    = Return (train_model load_data.1.1 load_data.1.2,
              PList (PStr <$> load_data.2)) /\
    feature_names_of (PList (PStr <$> load_data.2)) = Some load_data.2.
Proof.
  intros Hclear Hmodel Hfeatures.
  destruct load_data as [[X y] feature_names]. simpl.
  set (out_dir := {| is_absolute := false; parts := [] |}).
  assert (Hout : resolve cwd out_dir = cwd) by apply app_nil_r.
  destruct (save_artifacts_run cwd (train_model X y) feature_names out_dir fs)
    as (fs1 & _ & _ & Hrun); try (rewrite Hout; assumption).
  rewrite Hout in Hrun.
  assert (Hne : cwd ++ ["model.joblib"] <> cwd ++ ["features.json"])
    by (intros Heq; apply app_inv_head in Heq; discriminate).
  eexists. split; [exact Hrun|]. split; [|apply feature_names_of_strs].
  apply (startup_Return cwd _ _ [("feature_order", PList (PStr <$> feature_names))]).
  - rewrite lookup_insert_ne by congruence. apply lookup_insert_eq.
  - apply lookup_insert_eq.
  - reflexivity.
Qed.

(** ** The further properties at the sample data *)

Lemma sample_row :
  row_values py_float sample_schema sample_record [f13_2; f1_78].
Proof. apply (build_row_Return py_float sample_schema 0). reflexivity. Qed.

Lemma empty_has_no_file (p : path) :
  no_file_on_the_way (∅ : gmap path node) p.
Proof. intros q c _. rewrite lookup_empty. discriminate. Qed.

(** X3 at the sample data. *)
Lemma non_object_reported_witness :
  (forall r, PInt 3 <> PDict r) /\
  Forall (well_formed py_float sample_schema) [sample_record] /\
  _validate_and_build_matrix py_float sample_schema
    (PList [sample_record; PInt 3; sample_record_abc])
  = Raise (ValueError (NotObjectText 1)).
Proof.
  assert (H1 : forall r, PInt 3 <> PDict r) by discriminate.
  assert (H2 : Forall (well_formed py_float sample_schema) [sample_record])
    by (repeat constructor; exact sample_record_well_formed).
  split; [exact H1|]. split; [exact H2|].
  exact (non_object_reported py_float sample_schema
           [sample_record] [sample_record_abc] (PInt 3) H1 H2).
Defined.

(** X4 at the sample data. *)
Lemma validation_error_located_witness :
  _validate_and_build_matrix py_float sample_schema
    (PList [sample_record; sample_record_abc])
  = Raise (ValueError (NotNumericText "malic_acid" 1)) /\
  exists i row,
    text_position (NotNumericText "malic_acid" 1) = Some i /\
    [sample_record; sample_record_abc] !! i = Some row /\
    ~ well_formed py_float sample_schema row.
Proof.
  assert (H1 : _validate_and_build_matrix py_float sample_schema
                 (PList [sample_record; sample_record_abc])
               = Raise (ValueError (NotNumericText "malic_acid" 1)))
    by reflexivity.
  split; [exact H1|].
  destruct (validation_error_located py_float sample_schema _ _ H1)
    as (msg & Hmsg & [Hnil|(i & row & Hpos & Hrow & Hbad & _)]).
  - discriminate.
  - injection Hmsg as <-. exists i, row. auto.
Defined.

(** X5 at the sample data. *)
Lemma validation_of_concatenation_witness :
  _validate_and_build_matrix py_float sample_schema (PList [sample_record])
  = Return [[f13_2; f1_78]] /\
  _validate_and_build_matrix py_float sample_schema
    (PList [sample_record_extra]) = Return [[f13_2; f1_78]] /\
  _validate_and_build_matrix py_float sample_schema
    (PList ([sample_record] ++ [sample_record_extra]))
  = Return ([[f13_2; f1_78]] ++ [[f13_2; f1_78]]).
Proof.
  split; [reflexivity|]. split; [reflexivity|].
  exact (validation_of_concatenation py_float sample_schema
           [sample_record] [sample_record_extra] _ _ eq_refl eq_refl).
Defined.

(** X6 at the sample data. *)
Lemma advertised_features_accepted_witness :
  (forall x, py_float (PFloat x) = Some x) /\
  NoDup sample_schema /\
  length [f13_2; f1_78] = length sample_schema /\
  exists names,
    _validate_and_build_matrix py_float sample_schema
      (PList [record_of names [f13_2; f1_78]]) = Return [[f13_2; f1_78]].
Proof.
  assert (H1 : forall x, py_float (PFloat x) = Some x) by reflexivity.
  assert (H2 : NoDup sample_schema).
  { repeat constructor.
    - intros Hin. apply list_elem_of_In in Hin. simpl in Hin.
      destruct Hin as [Hin|[]]. discriminate.
    - intros Hin. inversion Hin. }
  split; [exact H1|]. split; [exact H2|]. split; [reflexivity|].
  destruct (advertised_features_accepted py_float sample_schema
              [f13_2; f1_78] H1 H2 eq_refl)
    as (body & v & names & _ & _ & _ & Hval).
  exists names. exact Hval.
Defined.

(** X7 at the sample data. *)
Lemma validation_error_gets_400_witness :
  dict_get [("instances", PList [sample_record_missing])] "instances"
  = Some (PList [sample_record_missing]) /\
  _validate_and_build_matrix py_float sample_schema
    (PList [sample_record_missing])
  = Raise (ValueError (MissingText 0 ["malic_acid"])) /\
  predict py_float sample_schema sample_class_names sample_model
          (Return (PDict [("instances", PList [sample_record_missing])]))
  = (ErrorBody (StrOf (ValueError (MissingText 0 ["malic_acid"]))), 400).
Proof.
  split; [reflexivity|]. split; [reflexivity|].
  exact (validation_error_gets_400 py_float sample_schema sample_class_names
           sample_model [("instances", PList [sample_record_missing])]
           (PList [sample_record_missing])
           (ValueError (MissingText 0 ["malic_acid"])) eq_refl eq_refl).
Defined.

(** X10 at the sample data, with a pipeline that answers class -1. *)
Lemma predict_succeeds_witness :
  let MODEL := {| pipeline_predict := fun X => Return ((fun _ => (-1)%Z) <$> X);
                  pipeline_predict_proba := None |} in
  let d := [("instances", PList [sample_record])] in
  dict_get d "instances" = Some (PList [sample_record]) /\
  [sample_record] <> [] /\
  Forall2 (row_values py_float sample_schema) [sample_record]
          [[f13_2; f1_78]] /\
  pipeline_predict MODEL [[f13_2; f1_78]] = Return [(-1)%Z] /\
  (forall p, p ∈ [(-1)%Z] -> ~ out_of_range sample_class_names p) /\
  exists classes_str probas,
    predict py_float sample_schema sample_class_names MODEL (Return (PDict d))
    = (JsonBody [("predictions", PList [PInt (-1)]);
                 ("classes", PList (PStr <$> classes_str));
                 ("probas", probas);
                 ("class_names", PList (PStr <$> sample_class_names))],
       200) /\
    Forall2 (fun p c => sample_class_names !! Z.to_nat (p mod 3) = Some c)
            [(-1)%Z] classes_str.
Proof.
  intros MODEL d.
  assert (H2 : [sample_record] <> []) by discriminate.
  assert (H3 : Forall2 (row_values py_float sample_schema) [sample_record]
                       [[f13_2; f1_78]])
    by (repeat constructor; exact sample_row).
  assert (H5 : forall p, p ∈ [(-1)%Z] -> ~ out_of_range sample_class_names p).
  { intros p Hp. apply list_elem_of_In in Hp. simpl in Hp.
    destruct Hp as [<-|[]]. unfold out_of_range. simpl. lia. }
  split; [reflexivity|]. split; [exact H2|]. split; [exact H3|].
  split; [reflexivity|]. split; [exact H5|].
  exact (predict_succeeds py_float sample_schema sample_class_names MODEL
           d [sample_record] [[f13_2; f1_78]] [(-1)%Z]
           eq_refl H2 H3 eq_refl I H5).
Defined.

(** X11 at the sample data. *)
Lemma class_id_bounds_witness :
  let d := [("instances", PList [sample_record])] in
  dict_get d "instances" = Some (PList [sample_record]) /\
  _validate_and_build_matrix py_float sample_schema (PList [sample_record])
  = Return [[f13_2; f1_78]] /\
  pipeline_predict sample_model_mismatched [[f13_2; f1_78]] = Return [7%Z] /\
  (predict py_float sample_schema sample_class_names sample_model_mismatched
           (Return (PDict d))
   = (ErrorBody (InternalErrorOf IndexError), 500)
   <-> exists p, p ∈ [7%Z] /\ out_of_range sample_class_names p).
Proof.
  intros d. split; [reflexivity|]. split; [reflexivity|].
  split; [reflexivity|].
  exact (proj1 (class_id_bounds py_float sample_schema sample_class_names
                  sample_model_mismatched d (PList [sample_record])
                  [[f13_2; f1_78]] [7%Z] eq_refl eq_refl eq_refl I)).
Defined.

(** X12 at the sample data. *)
Lemma probas_follow_predict_proba_witness :
  let predict_proba := fun X : matrix =>
        Return ((fun _ => [f0_0; f1_0; f0_0]) <$> X) in
  let response :=
    predict py_float sample_schema sample_class_names sample_model
            (request_of [sample_record]) in
  pipeline_predict_proba sample_model = Some predict_proba /\
  response = (response.1, 200) /\
  exists resp P,
    response.1 = JsonBody resp /\
    dict_get resp "probas"
    = Some (PList ((fun row => PList (PFloat <$> row)) <$> P)).
Proof.
  intros predict_proba response.
  split; [reflexivity|]. split; [reflexivity|].
  destruct (probas_follow_predict_proba py_float sample_schema
              sample_class_names sample_model (request_of [sample_record])
              response.1 predict_proba eq_refl eq_refl)
    as (resp & X & preds & P & Hbody & _ & _ & _ & Hprobas).
  exists resp, P. split; [exact Hbody|exact Hprobas].
Defined.

(** X15 at a file system where a regular file bears the name of the
    target directory. *)
Lemma save_blocked_by_file_witness :
  let out_dir := {| is_absolute := false; parts := ["artifacts"] |} in
  let fs : gmap path node :=
    {[ ["srv"; "artifacts"] := File (JsonText PNone) ]} in
  resolve ["srv"] out_dir = ["srv"] ++ "artifacts" :: [] /\
  no_file_on_the_way fs ["srv"] /\
  fs !! (["srv"] ++ ["artifacts"]) = Some (File (JsonText PNone)) /\
  exists fs',
    save_artifacts ["srv"] sample_model sample_schema out_dir fs
    = (Raise (OSError EEXIST ["srv"; "artifacts"]), fs').
Proof.
  intros out_dir fs.
  assert (H2 : no_file_on_the_way fs ["srv"]).
  { intros q c Hq. unfold fs. rewrite lookup_singleton_ne; [discriminate|].
    intros <-. apply prefix_length in Hq. simpl in Hq. lia. }
  assert (H3 : fs !! (["srv"] ++ ["artifacts"]) = Some (File (JsonText PNone)))
    by apply lookup_singleton_eq.
  split; [reflexivity|]. split; [exact H2|]. split; [exact H3|].
  destruct (save_blocked_by_file ["srv"] sample_model sample_schema out_dir fs
              ["srv"] "artifacts" [] (JsonText PNone) eq_refl H2 H3)
    as (fs' & Hrun & _).
  exists fs'. exact Hrun.
Defined.

Lemma sample_srv_clear (fs : gmap path node) (c : content) :
  fs = <[ ["srv"; "notes.txt"] := File c ]> {[ ["srv"] := Directory ]} ->
  no_file_on_the_way fs ["srv"; "artifacts"] /\
  fs !! ["srv"; "artifacts"; "model.joblib"] <> Some Directory /\
  fs !! ["srv"; "artifacts"; "features.json"] <> Some Directory.
Proof.
  intros ->. split; [|split].
  - intros q c' [k Hk]. rewrite lookup_insert_ne.
    + destruct (decide (["srv"] = q)) as [<-|Hne].
      * rewrite lookup_singleton_eq. discriminate.
      * rewrite lookup_singleton_ne by exact Hne. discriminate.
    + intros <-. discriminate.
  - rewrite lookup_insert_ne by discriminate.
    rewrite lookup_singleton_ne by discriminate. discriminate.
  - rewrite lookup_insert_ne by discriminate.
    rewrite lookup_singleton_ne by discriminate. discriminate.
Qed.

(** X16 at a file system that holds the working directory [srv] and a file
    [srv/notes.txt]: the file is there after the save. *)
Lemma save_touches_nothing_else_witness :
  let out_dir := {| is_absolute := false; parts := ["artifacts"] |} in
  let fs : gmap path node :=
    <[ ["srv"; "notes.txt"] := File (JsonText PNone) ]>
      {[ ["srv"] := Directory ]} in
  plain out_dir /\
  node_at fs ["srv"] = Some Directory /\
  no_file_on_the_way fs (resolve ["srv"] out_dir) /\
  fs !! (resolve ["srv"] out_dir ++ ["model.joblib"]) <> Some Directory /\
  fs !! (resolve ["srv"] out_dir ++ ["features.json"]) <> Some Directory /\
  exists fs',
    save_artifacts ["srv"] sample_model sample_schema out_dir fs
    = (Return tt, fs') /\
    fs' !! ["srv"; "notes.txt"] = Some (File (JsonText PNone)) /\
    fs' !! ["srv"] = Some Directory.
Proof.
  intros out_dir fs.
  assert (H0 : plain out_dir) by (repeat constructor; discriminate).
  assert (Hcwd : node_at fs ["srv"] = Some Directory).
  { unfold fs. simpl. rewrite lookup_insert_ne by discriminate.
    apply lookup_singleton_eq. }
  destruct (sample_srv_clear fs (JsonText PNone) eq_refl) as (H1 & H2 & H3).
  split; [exact H0|]. split; [exact Hcwd|]. split; [exact H1|].
  split; [exact H2|]. split; [exact H3|].
  destruct (save_touches_nothing_else ["srv"] sample_model sample_schema
              out_dir fs H0 Hcwd H1 H2 H3) as (fs' & Hrun & Hoff & Hdirs).
  exists fs'. split; [exact Hrun|]. split.
  - rewrite Hoff.
    + unfold fs. apply lookup_insert_eq.
    + intros [k Hk]. discriminate.
    + discriminate.
    + discriminate.
  - apply Hdirs. exact Hcwd.
Defined.

(** X17 at a file system that holds the working directory [srv]. *)
Lemma save_overwrites_witness :
  let out_dir := {| is_absolute := false; parts := ["artifacts"] |} in
  let fs : gmap path node :=
    <[ ["srv"; "notes.txt"] := File (JsonText PNone) ]>
      {[ ["srv"] := Directory ]} in
  plain out_dir /\
  node_at fs ["srv"] = Some Directory /\
  no_file_on_the_way fs (resolve ["srv"] out_dir) /\
  fs !! (resolve ["srv"] out_dir ++ ["model.joblib"]) <> Some Directory /\
  fs !! (resolve ["srv"] out_dir ++ ["features.json"]) <> Some Directory /\
  exists fs1 fs2,
    save_artifacts ["srv"] sample_model_no_proba ["alcohol"] out_dir fs
    = (Return tt, fs1) /\
    save_artifacts ["srv"] sample_model sample_schema out_dir fs1
    = (Return tt, fs2) /\
    startup ["srv"; "artifacts"] fs2
    = Return (sample_model, PList (PStr <$> sample_schema)).
Proof.
  intros out_dir fs.
  assert (H0 : plain out_dir) by (repeat constructor; discriminate).
  assert (Hcwd : node_at fs ["srv"] = Some Directory).
  { unfold fs. simpl. rewrite lookup_insert_ne by discriminate.
    apply lookup_singleton_eq. }
  destruct (sample_srv_clear fs (JsonText PNone) eq_refl) as (H1 & H2 & H3).
  split; [exact H0|]. split; [exact Hcwd|]. split; [exact H1|].
  split; [exact H2|]. split; [exact H3|].
  exact (save_overwrites ["srv"] sample_model_no_proba sample_model
           ["alcohol"] sample_schema out_dir fs H0 Hcwd H1 H2 H3).
Defined.

(** X18 at a file system where a directory bears the name of the features
    file. *)
Lemma save_partial_write_witness :
  let out_dir := {| is_absolute := false; parts := [] |} in
  let fs : gmap path node := {[ ["srv"; "features.json"] := Directory ]} in
  no_file_on_the_way fs (resolve ["srv"] out_dir) /\
  fs !! (resolve ["srv"] out_dir ++ ["model.joblib"]) <> Some Directory /\
  fs !! (resolve ["srv"] out_dir ++ ["features.json"]) = Some Directory /\
  exists fs',
    save_artifacts ["srv"] sample_model sample_schema out_dir fs
    = (Raise (OSError EISDIR ["srv"; "features.json"]), fs') /\
    fs' !! ["srv"; "model.joblib"] = Some (File (Joblib sample_model)).
Proof.
  intros out_dir fs.
  assert (H1 : no_file_on_the_way fs (resolve ["srv"] out_dir)).
  { intros q c Hq. unfold fs. rewrite lookup_singleton_ne; [discriminate|].
    intros <-. apply prefix_length in Hq. simpl in Hq. lia. }
  assert (H2 : fs !! (resolve ["srv"] out_dir ++ ["model.joblib"])
               <> Some Directory)
    by (unfold fs; rewrite lookup_singleton_ne; discriminate).
  assert (H3 : fs !! (resolve ["srv"] out_dir ++ ["features.json"])
               = Some Directory)
    by apply lookup_singleton_eq.
  split; [exact H1|]. split; [exact H2|]. split; [exact H3|].
  destruct (save_partial_write ["srv"] sample_model sample_schema out_dir fs
              H1 H2 H3) as (fs' & Hrun & Hmodel & _).
  exists fs'. split; [exact Hrun|exact Hmodel].
Defined.

(** X19 at the sample data. *)
Lemma main_then_startup_witness :
  let fs : gmap path node := ∅ in
  let load_data := (tt, tt, sample_schema) in
  let train_model := fun (_ _ : unit) => sample_model in
  no_file_on_the_way fs ["srv"] /\
  fs !! (["srv"] ++ ["model.joblib"]) <> Some Directory /\
  fs !! (["srv"] ++ ["features.json"]) <> Some Directory /\
  exists fs',
    main unit unit load_data train_model ["srv"] fs = (Return tt, fs') /\
    startup ["srv"] fs' = Return (sample_model, PList (PStr <$> sample_schema)).
Proof.
  intros fs load_data train_model.
  assert (H1 : no_file_on_the_way fs ["srv"]) by apply empty_has_no_file.
  assert (H2 : fs !! (["srv"] ++ ["model.joblib"]) <> Some Directory)
    by (unfold fs; rewrite lookup_empty; discriminate).
  assert (H3 : fs !! (["srv"] ++ ["features.json"]) <> Some Directory)
    by (unfold fs; rewrite lookup_empty; discriminate).
  split; [exact H1|]. split; [exact H2|]. split; [exact H3|].
  destruct (main_then_startup unit unit load_data train_model ["srv"] fs
              H1 H2 H3) as (fs' & Hrun & Hload & _).
  exists fs'. split; [exact Hrun|exact Hload].
Defined.
